(** * Worker node of the multi-agent graph (Worker.ts)

    A shallow embedding of [packages/components/nodes/langgraph/Worker/Worker.ts]:
    the node constructor [init], the agent compiler [createAgent] and the
    adapter [agentNode], together with what they rely on: JavaScript
    primitives (string truthiness, [Array.prototype.join], [parseFloat] with
    its rounding to a double, [??]), lodash [flatten] and the template
    parser of the prompt library. *)

From Stdlib Require Import ZArith NArith Ascii String DecimalString DecimalNat.
From stdpp Require Import base option list strings gmap.

Local Open Scope string_scope.

(** ** JavaScript primitives *)

Module JS.

(** A value that may be [null] or [undefined]. *)
Inductive nullable (A : Type) : Type :=
| Null : nullable A
| Undefined : nullable A
| Val : A -> nullable A.
Arguments Null {A}.
Arguments Undefined {A}.
Arguments Val {A} _.

(** [a ?? b]: the right operand is taken only for [null] and [undefined]. *)
Definition nullish {A} (a : nullable A) (b : A) : A :=
  match a with
  | Val x => x
  | Null | Undefined => b
  end.

(** The line feed written ['\n'] in the source. *)
Definition nl : string := String "010"%char EmptyString.

(** ToBoolean on strings: only the empty string is falsy. *)
Definition truthy_string (s : string) : bool :=
  match s with
  | EmptyString => false
  | String _ _ => true
  end.

(** ToBoolean on an optional string (a property that may be missing). *)
Definition truthy_opt (o : nullable string) : bool :=
  match o with
  | Val s => truthy_string s
  | Null | Undefined => false
  end.

(** ToBoolean on an array length. *)
Definition truthy_nat (n : nat) : bool :=
  match n with
  | O => false
  | S _ => true
  end.

(** ToString on a non-negative integer Number: its decimal digits. *)
Definition string_of_nat (n : nat) : string :=
  NilEmpty.string_of_uint (Nat.to_uint n).

(** [arr.join(sep)] on an array of strings. *)
Fixpoint join (sep : string) (l : list string) : string :=
  match l with
  | [] => ""
  | [x] => x
  | x :: rest => x +:+ sep +:+ join sep rest
  end.

(** [hay.startsWith(needle)]. *)
Fixpoint starts_with (needle hay : string) : bool :=
  match needle, hay with
  | EmptyString, _ => true
  | String _ _, EmptyString => false
  | String a n', String b h' => if Ascii.eqb a b then starts_with n' h' else false
  end.

(** [hay.includes(needle)]. *)
Fixpoint includes (needle hay : string) : bool :=
  starts_with needle hay ||
  match hay with
  | EmptyString => false
  | String _ h' => includes needle h'
  end.

(** *** Numbers and [parseFloat]

    A Number is an IEEE 754 double. A finite one is kept as the dyadic
    fraction it is, [(-1)^neg * num / 2^frac_bits], in lowest terms: [num]
    is odd whenever [frac_bits] is not 0, so an integer [n] is
    [Finite _ n 0]. *)
Inductive number : Type :=
| NaN : number
| Infinity (neg : bool) : number
| Finite (neg : bool) (num : N) (frac_bits : nat) : number.

(** [num / 2^bits] in lowest terms. *)
Fixpoint reduce (num : Z) (bits : nat) : Z * nat :=
  match bits with
  | O => (num, O)
  | S b => if Z.even num then reduce (Z.div2 num) b else (num, bits)
  end.

(** [a / d] rounded to the nearest integer, a tie to the even one. *)
Definition round_div (a d : Z) : Z :=
  let q := (a / d)%Z in
  let r := (a mod d)%Z in
  if (2 * r <? d)%Z then q
  else if (d <? 2 * r)%Z then (q + 1)%Z
  else if Z.even q then q else (q + 1)%Z.

(** The Number value of the decimal [m10 * 10^e10]: the double nearest to
    it (ties to even), with 53 bits of significand, steps of [2^-1074] at
    the small end and [Infinity] once the rounded value reaches [2^1024].
    [a / b] is the decimal, [l] its binary exponent, [e] the exponent of
    the last bit kept and [q] the significand in units of [2^e]. *)
Definition to_double (neg : bool) (m10 : N) (e10 : Z) : number :=
  if (m10 =? 0)%N then Finite neg 0 0
  else
    let a := if (0 <=? e10)%Z then (Z.of_N m10 * 10 ^ e10)%Z else Z.of_N m10 in
    let b := if (0 <=? e10)%Z then 1%Z else (10 ^ (- e10))%Z in
    let l0 := (Z.log2 a - Z.log2 b)%Z in
    let l := if (if (0 <=? l0)%Z then (b * 2 ^ l0 <=? a)%Z else (b <=? a * 2 ^ (- l0))%Z)
             then l0 else (l0 - 1)%Z in
    let e := Z.max (l - 52) (-1074) in
    let q := if (0 <=? e)%Z then round_div a (b * 2 ^ e)
             else round_div (a * 2 ^ (- e)) b in
    if (1024 <=? l)%Z || ((e =? 971)%Z && (q =? 2 ^ 53)%Z) then Infinity neg
    else if (0 <=? e)%Z then Finite neg (Z.to_N (q * 2 ^ e)) 0
    else let '(n, bits) := reduce q (Z.to_nat (- e)) in Finite neg (Z.to_N n) bits.

(** WhiteSpace and LineTerminator code units below 256. *)
Definition is_space (c : ascii) : bool :=
  let n := nat_of_ascii c in
  bool_decide (n = 9 \/ n = 10 \/ n = 11 \/ n = 12 \/ n = 13 \/ n = 32 \/ n = 160)%nat.

(** TrimString(s, start). *)
Fixpoint trim_start (s : string) : string :=
  match s with
  | String c s' => if is_space c then trim_start s' else s
  | EmptyString => s
  end.

Definition digit_of (c : ascii) : option N :=
  let n := N_of_ascii c in
  if ((48 <=? n) && (n <=? 57))%N then Some (n - 48)%N else None.

(** The longest run of DecimalDigits at the head of [s], and what follows. *)
Fixpoint take_digits (s : string) : list N * string :=
  match s with
  | String c s' =>
      match digit_of c with
      | Some d => let '(ds, r) := take_digits s' in (d :: ds, r)
      | None => ([], s)
      end
  | EmptyString => ([], s)
  end.

Definition digits_value (ds : list N) : N :=
  fold_left (fun acc d => 10 * acc + d)%N ds 0%N.

(** An optional [+] or [-]. *)
Definition take_sign (s : string) : bool * string :=
  match s with
  | String "-"%char r => (true, r)
  | String "+"%char r => (false, r)
  | _ => (false, s)
  end.

(** ExponentPart, when one is well formed at the head of [s]; otherwise the
    literal ends before it and the exponent is 0. *)
Definition take_exponent (s : string) : Z :=
  match s with
  | String c r =>
      if bool_decide (c = "e"%char \/ c = "E"%char) then
        let '(neg, r') := take_sign r in
        match take_digits r' with
        | ([], _) => 0%Z
        | (ds, _) =>
            let v := Z.of_N (digits_value ds) in
            if neg then (- v)%Z else v
        end
      else 0%Z
  | EmptyString => 0%Z
  end.

(** [parseFloat(input)]: the Number value of the longest prefix of the
    trimmed input that is a StrDecimalLiteral, [NaN] when there is none. *)
Definition parseFloat (input : string) : number :=
  let '(neg, s) := take_sign (trim_start input) in
  if starts_with "Infinity" s then Infinity neg
  else
    let '(ip, r) := take_digits s in
    match r with
    | String "."%char r' =>
        let '(fp, r'') := take_digits r' in
        match ip, fp with
        | [], [] => NaN
        | _, _ =>
            to_double neg (digits_value (ip ++ fp))
                      (take_exponent r'' - Z.of_nat (length fp))
        end
    | _ =>
        match ip with
        | [] => NaN
        | _ => to_double neg (digits_value ip) (take_exponent r)
        end
    end.

End JS.

(** ** Exceptions and state: a small error-and-state monad

    [throw new Error(..)] and the TypeError of a property read on
    [undefined] end a computation; what has been recorded in the state
    up to that point stays. *)

Module Eff.

Inductive error : Type :=
| Error (msg : string)
| TypeError (msg : string).

Inductive outcome (A : Type) : Type :=
| Ok (a : A)
| Throw (e : error).
Arguments Ok {A} _.
Arguments Throw {A} _.

Definition M (S A : Type) : Type := S -> outcome A * S.

Definition ret {S A} (a : A) : M S A := fun s => (Ok a, s).

Definition throw {S A} (e : error) : M S A := fun s => (Throw e, s).

Definition bind {S A B} (c : M S A) (k : A -> M S B) : M S B :=
  fun s =>
    match c s with
    | (Ok a, s') => k a s'
    | (Throw e, s') => (Throw e, s')
    end.

Definition modify {S} (f : S -> S) : M S unit := fun s => (Ok tt, f s).

Definition is_ok {A} (o : outcome A) : bool :=
  match o with Ok _ => true | Throw _ => false end.

End Eff.

Notation "'let!' x ':=' c 'in' k" := (Eff.bind c (fun x => k))
  (at level 10, x pattern, c at level 100, k at level 200).

(** ** The Worker node *)

Module Worker.
Import JS Eff.

(** *** Data *)

(** A tool as the node sees it: [t.name], and what [convertToOpenAITool]
    reads ([description], [schema]); the schema is kept as its rendering. *)
Record Tool : Type := mkTool {
  tool_name : string;
  tool_description : string;
  tool_schema : string
}.

(** The function-calling entry [convertToOpenAITool] builds:
    [{ type: 'function', function: { name, description, parameters } }]. *)
Record FunctionDefinition : Type := mkFunctionDefinition {
  fn_name : string;
  fn_description : string;
  fn_parameters : string
}.

Record OpenAITool : Type := mkOpenAITool {
  oa_type : string;
  oa_function : FunctionDefinition
}.

Definition convertToOpenAITool (t : Tool) : OpenAITool :=
  {| oa_type := "function";
     oa_function := {| fn_name := tool_name t;
                       fn_description := tool_description t;
                       fn_parameters := tool_schema t |} |}.

(** The name a schema entry is called by. *)
Definition entry_name (e : OpenAITool) : string := fn_name (oa_function e).

(** [ChatOpenAI | OllamaFunctions]. *)
Inductive LLM : Type :=
| ChatOpenAI (model : string)
| OllamaFunctions (model : string).

(** The argument of [llm.bind]: [{ tools: .. }], where [None] is the
    explicit [tools: undefined]. *)
Record BindKwargs : Type := mkBindKwargs {
  kw_tools : option (list OpenAITool)
}.

(** A model handle, bare or wrapped by [bind]. *)
Inductive ModelRunnable : Type :=
| Unbound (llm : LLM)
| Binding (llm : LLM) (kwargs : BindKwargs).

Definition llm_bind (llm : LLM) (kwargs : BindKwargs) : ModelRunnable :=
  Binding llm kwargs.

(** The entries of [ChatPromptTemplate.fromMessages]. *)
Inductive MessageTemplate : Type :=
| SystemTemplate (template : string)
| MessagesPlaceholder (variable : string).

Definition ChatPromptTemplate : Type := list MessageTemplate.

(** The stages of [RunnableSequence.from([..])]. *)
Inductive Runnable : Type :=
| AssignScratchpad
| Prompt (p : ChatPromptTemplate)
| Model (m : ModelRunnable)
| OpenAIToolsAgentOutputParser.

(** What [AgentExecutor.fromAgentAndTools] is given. *)
Record AgentExecutor : Type := mkAgentExecutor {
  agent : list Runnable;
  tools : list Tool;
  verbose : bool;
  maxIterations : option number
}.

(** *** createAgent *)

(** The operand of string [+]: [undefined] and [null] print their names. *)
Definition concat_operand (v : nullable string) : string :=
  match v with
  | Val s => s
  | Null => "null"
  | Undefined => "undefined"
  end.

Definition combinedPrompt (systemPrompt : nullable string) : string :=
  concat_operand systemPrompt +:+
  nl +:+ "Work autonomously according to your specialty, using the tools available to you." +:+
  " Do not ask for clarification." +:+
  " Your other team members (and other teams) will collaborate with you with their own specialties." +:+
  " You are chosen for a reason! You are one of the following team members: {team_members}.".

Definition toolNames (tools : list Tool) : string :=
  if truthy_nat (length tools) then join ", " (map tool_name tools) else "".

Definition restatement_lead : string :=
  "Remember, you individually can only use these tools: ".

Definition end_boilerplate : string :=
  "End if you have already completed the requested task. Communicate the work completed.".

Definition supervisor_clause : string :=
  "Supervisor instructions: {instructions}".

(** The one-element array of the last system message, joined. [+] binds
    tighter than [? :], so the condition of the conditional is the string
    [supervisor_clause + '\n' + tools.length], and the alternative is
    [('' + '\n\nEnd if ...')]. *)
Definition trailingSegment (tools : list Tool) : string :=
  join nl
    [ if truthy_string (supervisor_clause +:+ nl +:+ string_of_nat (length tools))
      then restatement_lead +:+ toolNames tools
      else "" +:+ nl +:+ nl +:+ end_boilerplate ].

(** The messages handed to [ChatPromptTemplate.fromMessages]. *)
Definition prompt (tools : list Tool) (systemPrompt : nullable string)
  : ChatPromptTemplate :=
  [ SystemTemplate (combinedPrompt systemPrompt);
    MessagesPlaceholder "messages";
    MessagesPlaceholder "agent_scratchpad";
    SystemTemplate (trailingSegment tools) ].

Definition modelWithTools (llm : LLM) (tools : list Tool) : ModelRunnable :=
  if truthy_nat (length tools)
  then llm_bind llm {| kw_tools := Some (map convertToOpenAITool tools) |}
  else llm_bind llm {| kw_tools := None |}.

(** [maxIterations ? parseFloat(maxIterations) : undefined]. *)
Definition parse_maxIterations (maxIterations : nullable string) : option number :=
  match maxIterations with
  | Val s => if truthy_string s then Some (parseFloat s) else None
  | Null | Undefined => None
  end.

(** [process.env.DEBUG === 'true']. *)
Definition debug_enabled (env_DEBUG : nullable string) : bool :=
  match env_DEBUG with
  | Val s => String.eqb s "true"
  | Null | Undefined => false
  end.

(** A piece of a parsed template. *)
Inductive ParsedFStringNode : Type :=
| LiteralNode (text : string)
| VariableNode (name : string).

Definition unclosed_brace : error := Error "Unclosed '{' in template.".
Definition single_brace : error := Error "Single '}' in template.".

Definition prepend (ns : list ParsedFStringNode)
    (o : outcome (list ParsedFStringNode)) : outcome (list ParsedFStringNode) :=
  match o with
  | Ok rest => Ok (ns ++ rest)%list
  | Throw e => Throw e
  end.

(** The literal run read so far, as a node, if there is one. *)
Definition flush (run : string) : list ParsedFStringNode :=
  match run with
  | EmptyString => []
  | String _ _ => [LiteralNode run]
  end.

(** [parseFString(template)] of the prompt library, which
    [ChatPromptTemplate.fromMessages] runs on every message template:
    [{{] and [}}] are the literal braces, [{name}] is a variable that runs
    to the next [}], a [{] that is never closed and a [}] on its own throw.
    [run] is the literal text read since the last node, [var] the variable
    name being read, if one is open. *)
Fixpoint parseFString_from (s : string) (run : string) (var : option string)
  : outcome (list ParsedFStringNode) :=
  match var with
  | Some name =>
      match s with
      | EmptyString => Throw unclosed_brace
      | String c r =>
          if Ascii.eqb c "}" then prepend [VariableNode name] (parseFString_from r "" None)
          else parseFString_from r "" (Some (name +:+ String c ""))
      end
  | None =>
      match s with
      | EmptyString => Ok (flush run)
      | String c r =>
          if Ascii.eqb c "{" then
            match r with
            | String c' r' =>
                if Ascii.eqb c' "{"
                then prepend (flush run ++ [LiteralNode "{"])%list (parseFString_from r' "" None)
                else prepend (flush run) (parseFString_from r "" (Some ""))
            | EmptyString => prepend (flush run) (parseFString_from r "" (Some ""))
            end
          else if Ascii.eqb c "}" then
            match r with
            | String c' r' =>
                if Ascii.eqb c' "}"
                then prepend (flush run ++ [LiteralNode "}"])%list (parseFString_from r' "" None)
                else Throw single_brace
            | EmptyString => Throw single_brace
            end
          else parseFString_from r (run +:+ String c "") None
      end
  end.

Definition parseFString (template : string) : outcome (list ParsedFStringNode) :=
  parseFString_from template "" None.

(** [ChatPromptTemplate.fromMessages(messages)]: every system template is
    parsed, in order, and the first that does not parse throws; the template
    texts are what the compiled prompt keeps. *)
Fixpoint fromMessages (messages : list MessageTemplate) : outcome ChatPromptTemplate :=
  match messages with
  | [] => Ok []
  | MessagesPlaceholder v :: rest =>
      match fromMessages rest with
      | Ok p => Ok (MessagesPlaceholder v :: p)
      | Throw e => Throw e
      end
  | SystemTemplate t :: rest =>
      match parseFString t with
      | Throw e => Throw e
      | Ok _ =>
          match fromMessages rest with
          | Ok p => Ok (SystemTemplate t :: p)
          | Throw e => Throw e
          end
      end
  end.

(** [createAgent]. The prompt is built first and throws on a template that
    does not parse; [llm.bind] comes next and throws on an [llm] that is
    [undefined] or [null]; the executor is built last. The [llm] is what
    [init] read from [supervisor.llm], which may be missing. *)
Definition createAgent (env_DEBUG : nullable string) (llm : nullable LLM)
    (tools : list Tool) (systemPrompt : nullable string)
    (maxIterations : nullable string) : outcome AgentExecutor :=
  match fromMessages (prompt tools systemPrompt) with
  | Throw e => Throw e
  | Ok prompt =>
      match llm with
      | Val llm =>
          Ok {| agent := [ AssignScratchpad;
                           Prompt prompt;
                           Model (modelWithTools llm tools);
                           OpenAIToolsAgentOutputParser ];
                tools := tools;
                verbose := debug_enabled env_DEBUG;
                maxIterations := parse_maxIterations maxIterations |}
      | Null =>
          Throw (TypeError "Cannot read properties of null (reading 'bind')")
      | Undefined =>
          Throw (TypeError "Cannot read properties of undefined (reading 'bind')")
      end
  end.

(** *** init *)

(** An element of the [tools] input: a tool, or an array of tools that
    [flatten] spreads. *)
Inductive ToolEntry : Type :=
| OneTool (t : Tool)
| ToolArray (ts : list Tool).

(** lodash [flatten]: one level, and [[]] for a missing array. *)
Definition flatten (v : nullable (list ToolEntry)) : list Tool :=
  match v with
  | Val l => concat (map (fun e => match e with
                                   | OneTool t => [t]
                                   | ToolArray ts => ts
                                   end) l)
  | Null | Undefined => []
  end.

(** The supervisor handle, read for [llm] and [name]. *)
Record Supervisor : Type := mkSupervisor {
  sup_llm : nullable LLM;
  sup_name : nullable string
}.

Record Inputs : Type := mkInputs {
  in_tools : nullable (list ToolEntry);
  in_workerPrompt : nullable string;
  in_workerName : nullable string;
  in_supervisor : nullable Supervisor;
  in_maxIterations : nullable string
}.

Record INodeData : Type := mkNodeData {
  inputs : option Inputs
}.

(** [nodeData.inputs?.field]. *)
Definition opt_chain {A} (i : option Inputs) (field : Inputs -> nullable A)
  : nullable A :=
  match i with
  | Some r => field r
  | None => Undefined
  end.

(** The closure [workerNode], as the variables it captures. *)
Record WorkerNode : Type := mkWorkerNode {
  wn_agent : AgentExecutor;
  wn_name : string
}.

Record IMultiAgentNode : Type := mkMultiAgentNode {
  node : WorkerNode;
  name : string;
  node_type : string;
  parentSupervisorName : string
}.

(** What construction leaves behind: each executor it compiles. *)
Inductive event : Type :=
| AgentCompiled (e : AgentExecutor).

Definition name_required : error := Error "Worker name is required!".

(** [if (!workerName) throw ..] rejects [undefined], [null] and ['']; past
    it [workerName] is a non-empty string. A missing supervisor makes
    [supervisor.llm] throw; what [createAgent] throws is passed on; an
    executor that has been built is recorded. *)
Definition init (env_DEBUG : nullable string) (nodeData : INodeData)
  : M (list event) IMultiAgentNode :=
  let tools := flatten (opt_chain (inputs nodeData) in_tools) in
  let workerPrompt := opt_chain (inputs nodeData) in_workerPrompt in
  let workerName := opt_chain (inputs nodeData) in_workerName in
  let supervisor := opt_chain (inputs nodeData) in_supervisor in
  let maxIterations := opt_chain (inputs nodeData) in_maxIterations in
  match workerName with
  | Val wn =>
      if negb (truthy_string wn) then throw name_required
      else
        match supervisor with
        | Val sup =>
            let llm := sup_llm sup in
            match createAgent env_DEBUG llm tools workerPrompt maxIterations with
            | Ok agent =>
                let! _ := modify (fun tr => (tr ++ [AgentCompiled agent])%list) in
                let workerNode := {| wn_agent := agent; wn_name := wn |} in
                ret {| node := workerNode;
                       name := wn;
                       node_type := "worker";
                       parentSupervisorName := nullish (sup_name sup) "supervisor" |}
            | Throw e => throw e
            end
        | Null =>
            throw (TypeError "Cannot read properties of null (reading 'llm')")
        | Undefined =>
            throw (TypeError "Cannot read properties of undefined (reading 'llm')")
        end
  | Null | Undefined => throw name_required
  end.

(** *** agentNode *)

Record Message : Type := mkMessage {
  msg_role : string;
  content : string;
  msg_name : option string
}.

(** [new HumanMessage({ content, name })]. *)
Definition HumanMessage (c : string) (n : string) : Message :=
  {| msg_role := "human"; content := c; msg_name := Some n |}.

(** The team state object the graph hands to a node. *)
Record ITeamState : Type := mkTeamState {
  messages : list Message;
  instructions : string;
  team_members : list string
}.

(** Objects live in a store; a node receives the address of the state. *)
Definition loc : Type := positive.
Abbreviation heap := (gmap loc ITeamState).

(** The executor's result object: [output], and every other key. *)
Record ChainValues : Type := mkChainValues {
  output : string;
  others : gmap string string
}.

Definition RunnableConfig : Type := gmap string string.

(** What a node returns: [{ messages: [..] }]. *)
Record StateDelta : Type := mkStateDelta {
  delta_messages : list Message
}.

(** Modelled from the spec: how the graph folds a delta into the team
    state, "exactly one new message to append"; the reducer itself belongs
    to the graph engine. *)
Definition apply_delta (st : ITeamState) (d : StateDelta) : ITeamState :=
  {| messages := (messages st ++ delta_messages d)%list;
     instructions := instructions st;
     team_members := team_members st |}.

Section Node.

(** [agent.invoke(state, config)] of the executor class, which lives
    outside this file: it may read and write the store, and may throw. *)
Variable invoke : AgentExecutor -> loc -> RunnableConfig -> M heap ChainValues.

Definition agentNode (state : loc) (agent : AgentExecutor) (name : string)
    (config : RunnableConfig) : M heap StateDelta :=
  let! result := invoke agent state config in
  ret {| delta_messages := [HumanMessage (output result) name] |}.

Definition workerNode (w : WorkerNode) (state : loc) (config : RunnableConfig)
  : M heap StateDelta :=
  agentNode state (wn_agent w) (wn_name w) config.

End Node.

End Worker.


(** ** The execution loop behind [AgentExecutor]

    The class [AgentExecutor] is imported from [../../../src/agents] and its
    body is not in the file embedded above; the loop below follows the
    specification's "Loop semantics" (prompt, one model call, tool dispatch,
    append to the scratchpad, stop at the cap). *)

Module Executor.
Import JS Eff Worker.

(** Modelled from the spec: a tool request of the model, by tool name. *)
Record ToolInvocation : Type := mkToolInvocation {
  inv_tool : string;
  inv_input : string
}.

(** Modelled from the spec: the parsed model response, "either a
    tool-invocation request (possibly plural) or a final answer"; [text]
    is the raw model output. *)
Inductive ModelOutput : Type :=
| ToolCalls (text : string) (calls : list ToolInvocation)
| FinalAnswer (text : string).

(** Modelled from the spec: ToolResult, "value or failure". *)
Inductive ToolResult : Type :=
| Value (v : string)
| Failure (err : string).

(** Modelled from the spec: ConversationStep, one round of the loop. *)
Record ConversationStep : Type := mkStep {
  action : ModelOutput;
  observation : list ToolResult
}.

(** Modelled from the spec: the marker that tells a forced stop from a
    natural finish. *)
Inductive Finish : Type :=
| NaturalFinish
| ForcedStop.

(** Modelled from the spec: the tagged result of one invocation; [rounds]
    counts the model calls made. *)
Record Result : Type := mkResult {
  res_output : string;
  res_finish : Finish;
  res_rounds : nat;
  res_steps : list ConversationStep
}.

(** Modelled from the spec: AgentConfig.maxIterations, "integer|unbounded";
    a Number that is no non-negative integer has no counterpart. *)
Definition cap_of (m : option number) : option (option nat) :=
  match m with
  | None => Some None
  | Some (Finite neg k O) =>
      if neg && negb (k =? 0)%N then None else Some (Some (N.to_nat k))
  | Some (Finite _ _ (S _)) | Some NaN | Some (Infinity _) => None
  end.

(** Modelled from the spec: "the scratchpad length reaches maxIterations
    (when finite)". *)
Definition reached (cap : option nat) (scratchpad : list ConversationStep) : bool :=
  match cap with
  | Some k => (k <=? length scratchpad)%nat
  | None => false
  end.

Section Loop.

(** The bound model: history and scratchpad in, a parsed response out,
    or a failed call. *)
Variable model : ITeamState -> list ConversationStep -> outcome ModelOutput.

(** Tool dispatch: a failing tool yields [Failure], never an exception. *)
Variable dispatch : ToolInvocation -> ToolResult.

(** Modelled from the spec: steps 1-5 of the decision pipeline. [fuel]
    bounds the rounds this function may unfold; [None] means it was too
    small. [last] is the latest model output. *)
Fixpoint loop (fuel : nat) (cap : option nat) (history : ITeamState)
    (scratchpad : list ConversationStep) (rounds : nat) (last : string)
  : option (outcome Result) :=
  match fuel with
  | O => None
  | S fuel' =>
      if reached cap scratchpad then
        Some (Ok {| res_output := last; res_finish := ForcedStop;
                    res_rounds := rounds; res_steps := scratchpad |})
      else
        match model history scratchpad with
        | Throw e => Some (Throw e)
        | Ok (FinalAnswer t) =>
            Some (Ok {| res_output := t; res_finish := NaturalFinish;
                        res_rounds := S rounds; res_steps := scratchpad |})
        | Ok (ToolCalls t calls) =>
            loop fuel' cap history
                 (scratchpad ++ [ {| action := ToolCalls t calls;
                                     observation := map dispatch calls |} ])%list
                 (S rounds) t
        end
  end.

Definition run (fuel : nat) (cap : option nat) (history : ITeamState)
  : option (outcome Result) :=
  loop fuel cap history [] 0 "".

Definition finish_key : string := "finish".

Definition render_finish (f : Finish) : string :=
  match f with
  | NaturalFinish => "natural"
  | ForcedStop => "forced"
  end.

(** Modelled from the spec: [invoke] of an executor built on this loop,
    for a stub model: it reads the state at its address, runs the loop
    and returns [{ output, finish }]; it writes nothing. *)
Definition stub_invoke (fuel : nat) (agent : AgentExecutor) (state : loc)
    (config : RunnableConfig) : M (gmap loc ITeamState) ChainValues :=
  fun h =>
    match h !! state, cap_of (maxIterations agent) with
    | Some st, Some cap =>
        match run fuel cap st with
        | Some (Ok r) =>
            (Ok {| output := res_output r;
                   others := {[ finish_key := render_finish (res_finish r) ]} |}, h)
        | Some (Throw e) => (Throw e, h)
        | None => (Throw (Error "stub: no result within the rounds unfolded"), h)
        end
    | None, _ => (Throw (TypeError "stub: no state at this address"), h)
    | _, None => (Throw (Error "stub: maxIterations is no integer"), h)
    end.

End Loop.

End Executor.

(** ** Two runs used as concrete instances *)

Module Scenario.
Import JS Eff Worker Executor.

Definition search : Tool := mkTool "search" "Search the web" "{ query: string }".

Definition supervisor : Supervisor :=
  {| sup_llm := Val (ChatOpenAI "gpt-4"); sup_name := Undefined |}.

(** A worker without tools and without an iteration limit. *)
Definition summarizer : INodeData :=
  {| inputs := Some {| in_tools := Undefined;
                       in_workerPrompt := Val "Summarize the given text";
                       in_workerName := Val "worker";
                       in_supervisor := Val supervisor;
                       in_maxIterations := Undefined |} |}.

(** A worker with one tool and [maxIterations = "2"]. *)
Definition searcher : INodeData :=
  {| inputs := Some {| in_tools := Val [OneTool search];
                       in_workerPrompt := Val "You are a research assistant.";
                       in_workerName := Val "researcher";
                       in_supervisor := Val supervisor;
                       in_maxIterations := Val "2" |} |}.

Definition team : ITeamState :=
  {| messages := [ {| msg_role := "human";
                      content := "Please summarize: ...";
                      msg_name := None |} ];
     instructions := "Summarize for the user.";
     team_members := ["worker"; "researcher"] |}.

Definition state : loc := 1%positive.

Definition store : gmap loc ITeamState := {[ state := team ]}.

Definition config : RunnableConfig := ∅.

(** Model stubs. *)
Definition answers_at_once (_ : ITeamState) (_ : list ConversationStep)
  : outcome ModelOutput :=
  Ok (FinalAnswer "Summary: ...").

Definition always_searches (_ : ITeamState) (_ : list ConversationStep)
  : outcome ModelOutput :=
  Ok (ToolCalls "Let me search." [ {| inv_tool := "search"; inv_input := "news" |} ]).

Definition says_let_me_search (_ : ITeamState) (_ : list ConversationStep)
  : outcome ModelOutput :=
  Ok (FinalAnswer "Let me search.").

Definition echo (i : ToolInvocation) : ToolResult := Value (inv_input i).

(** The workers [init] builds from the two inputs. *)
Definition summarizer_agent : AgentExecutor :=
  {| agent := [ AssignScratchpad;
                Prompt (prompt [] (Val "Summarize the given text"));
                Model (Binding (ChatOpenAI "gpt-4") {| kw_tools := None |});
                OpenAIToolsAgentOutputParser ];
     tools := [];
     verbose := false;
     maxIterations := None |}.

Definition summarizer_worker : IMultiAgentNode :=
  {| node := {| wn_agent := summarizer_agent; wn_name := "worker" |};
     name := "worker";
     node_type := "worker";
     parentSupervisorName := "supervisor" |}.

Definition searcher_agent : AgentExecutor :=
  {| agent := [ AssignScratchpad;
                Prompt (prompt [search] (Val "You are a research assistant."));
                Model (Binding (ChatOpenAI "gpt-4")
                         {| kw_tools := Some [convertToOpenAITool search] |});
                OpenAIToolsAgentOutputParser ];
     tools := [search];
     verbose := false;
     maxIterations := Some (Finite false 2 0) |}.

Definition searcher_worker : IMultiAgentNode :=
  {| node := {| wn_agent := searcher_agent; wn_name := "researcher" |};
     name := "researcher";
     node_type := "worker";
     parentSupervisorName := "supervisor" |}.

End Scenario.

(** ** The node class: what the constructor declares *)

Module NodeClass.
Import JS Worker.

Definition examplePrompt : string :=
  "You are a research assistant who can search for up-to-date info using search engine.".

(** An entry of [this.inputs]; a key the entry does not write is [None]. *)
Record INodeParams : Type := mkParam {
  prm_label : string;
  prm_name : string;
  prm_type : string;
  prm_placeholder : option string;
  prm_rows : option nat;
  prm_default : option string;
  prm_list : option bool;
  prm_optional : option bool;
  prm_additionalParams : option bool
}.

(** The fields of the class; [description] and [badge] are declared and
    never assigned. *)
Record INode : Type := mkNode {
  cls_label : string;
  cls_name : string;
  cls_version : number;
  cls_description : option string;
  cls_type : string;
  cls_icon : string;
  cls_category : string;
  cls_baseClasses : list string;
  cls_inputs : list INodeParams;
  cls_badge : option string
}.

(** [new Worker_MultiAgents()]. *)
Definition Worker_MultiAgents : INode :=
  let type := "Worker" in
  {| cls_label := "Worker";
     cls_name := "worker";
     cls_version := Finite false 1 0;
     cls_description := None;
     cls_type := type;
     cls_icon := "worker.svg";
     cls_category := "Multi Agents";
     cls_baseClasses := [type];
     cls_inputs :=
       [ {| prm_label := "Worker Name"; prm_name := "workerName"; prm_type := "string";
            prm_placeholder := Some "My Worker"; prm_rows := None; prm_default := None;
            prm_list := None; prm_optional := None; prm_additionalParams := None |};
         {| prm_label := "Worker Prompt"; prm_name := "workerPrompt"; prm_type := "string";
            prm_placeholder := None; prm_rows := Some 4%nat;
            prm_default := Some examplePrompt;
            prm_list := None; prm_optional := None; prm_additionalParams := None |};
         {| prm_label := "Supervisor"; prm_name := "supervisor"; prm_type := "Supervisor";
            prm_placeholder := None; prm_rows := None; prm_default := None;
            prm_list := None; prm_optional := None; prm_additionalParams := None |};
         {| prm_label := "Tools"; prm_name := "tools"; prm_type := "Tool";
            prm_placeholder := None; prm_rows := None; prm_default := None;
            prm_list := Some true; prm_optional := Some true;
            prm_additionalParams := None |};
         {| prm_label := "Max Iterations"; prm_name := "maxIterations"; prm_type := "number";
            prm_placeholder := None; prm_rows := None; prm_default := None;
            prm_list := None; prm_optional := Some true;
            prm_additionalParams := Some true |} ];
     cls_badge := None |}.

(** The [inputs] object without the key [key]: reading that key then gives
    [undefined]. *)
Definition delete_input (key : string) (i : Inputs) : Inputs :=
  {| in_tools := if String.eqb key "tools" then Undefined else in_tools i;
     in_workerPrompt :=
       if String.eqb key "workerPrompt" then Undefined else in_workerPrompt i;
     in_workerName := if String.eqb key "workerName" then Undefined else in_workerName i;
     in_supervisor := if String.eqb key "supervisor" then Undefined else in_supervisor i;
     in_maxIterations :=
       if String.eqb key "maxIterations" then Undefined else in_maxIterations i |}.

End NodeClass.

(** ** Properties *)

Import JS Eff Worker Executor.

(** *** The trailing system segment *)

Section TrailingSegment.

(** The condition of the conditional is a concatenation that starts with a
    non-empty literal, hence truthy whatever the toolset. *)
Lemma trailing_condition_truthy (n : nat) :
  truthy_string (supervisor_clause +:+ nl +:+ string_of_nat n) = true.
Proof. reflexivity. Qed.

Lemma trailingSegment_unfold (ts : list Tool) :
  trailingSegment ts = restatement_lead +:+ toolNames ts.
Proof.
  unfold trailingSegment. rewrite trailing_condition_truthy. reflexivity.
Qed.

(** No position inside the restatement lead starts the supervisor clause. *)
Lemma includes_clause_past_lead (t : string) :
  includes supervisor_clause (restatement_lead +:+ t) = includes supervisor_clause t.
Proof. reflexivity. Qed.

Lemma includes_lead_here (t : string) :
  includes restatement_lead (restatement_lead +:+ t) = true.
Proof. reflexivity. Qed.

Lemma prompt_last (ts : list Tool) (p : nullable string) :
  last (prompt ts p) = Some (SystemTemplate (trailingSegment ts)).
Proof. reflexivity. Qed.

End TrailingSegment.

(** C1 (as the code behaves, at the empty toolset): for every instruction,
    the last entry of the compiled prompt is the system message
    "Remember, you individually can only use these tools: " with nothing
    after it; it is non-empty, it does contain the restatement lead, and it
    does not contain the "End if you have already completed ..." text. *)
Theorem trailingSegment_empty_toolset (systemPrompt : nullable string) :
  last (prompt [] systemPrompt)
    = Some (SystemTemplate "Remember, you individually can only use these tools: ")
  /\ truthy_string (trailingSegment []) = true
  /\ includes restatement_lead (trailingSegment []) = true
  /\ includes end_boilerplate (trailingSegment []) = false.
Proof. repeat split. Qed.

(** C2 (as the code behaves): for every toolset the trailing segment is the
    restatement lead followed by the joined tool names, also when the toolset
    is empty; the clause "Supervisor instructions: {instructions}" occurs in
    it only where the tool names themselves spell it, and it is absent for
    the toolsets [[]] and [[search]]. *)
Theorem trailingSegment_always_restates (ts : list Tool) :
  trailingSegment ts = restatement_lead +:+ toolNames ts
  /\ includes restatement_lead (trailingSegment ts) = true
  /\ includes supervisor_clause (trailingSegment ts)
       = includes supervisor_clause (toolNames ts)
  /\ includes supervisor_clause (trailingSegment []) = false
  /\ includes supervisor_clause (trailingSegment [mkTool "search" "" ""]) = false.
Proof.
  rewrite trailingSegment_unfold.
  split; [reflexivity|].
  split; [apply includes_lead_here|].
  split; [apply includes_clause_past_lead|].
  split; reflexivity.
Qed.

(** *** Model binding *)

Section Binding.

Lemma entry_name_convert (t : Tool) :
  entry_name (convertToOpenAITool t) = tool_name t.
Proof. reflexivity. Qed.

Lemma entry_names_convert (ts : list Tool) :
  map entry_name (map convertToOpenAITool ts) = map tool_name ts.
Proof.
  induction ts as [|t ts IH]; simpl; [reflexivity|].
  rewrite IH. reflexivity.
Qed.

(** In a duplicate-free list an element that occurs, occurs once. *)
Lemma count_occ_NoDup_once (l : list string) (x : string) :
  NoDup l -> x ∈ l -> count_occ string_dec l x = 1%nat.
Proof.
  intros Hnd Hin.
  apply NoDup_ListNoDup in Hnd.
  apply list_elem_of_In in Hin.
  pose proof (proj1 (List.NoDup_count_occ string_dec l) Hnd x) as Hle.
  pose proof (proj1 (List.count_occ_In string_dec l x) Hin) as Hgt.
  lia.
Qed.

Lemma modelWithTools_cases (llm : LLM) (ts : list Tool) :
  modelWithTools llm ts
    = Binding llm {| kw_tools := match ts with
                                 | [] => None
                                 | _ :: _ => Some (map convertToOpenAITool ts)
                                 end |}.
Proof. destruct ts; reflexivity. Qed.

End Binding.

(** *** Templates and the compiled executor *)

Section Compiling.

Lemma prepend_throw (ns : list ParsedFStringNode)
    (o : outcome (list ParsedFStringNode)) (e : error) :
  prepend ns o = Throw e -> o = Throw e.
Proof. destruct o; simpl; intros H; [discriminate H|exact H]. Qed.

Lemma parseFString_from_throw_step (c : ascii) (r : string) :
  (forall run var e, parseFString_from r run var = Throw e ->
                     e = unclosed_brace \/ e = single_brace) ->
  (forall c' r', r = String c' r' ->
     forall run var e, parseFString_from r' run var = Throw e ->
                       e = unclosed_brace \/ e = single_brace) ->
  forall run var e, parseFString_from (String c r) run var = Throw e ->
                    e = unclosed_brace \/ e = single_brace.
Proof.
  intros Hr Hr' run var e H.
  destruct var as [name|]; cbn [parseFString_from] in H.
  - destruct (Ascii.eqb c "}"); [apply prepend_throw in H|]; exact (Hr _ _ _ H).
  - destruct (Ascii.eqb c "{").
    + destruct r as [|c' r']; [apply prepend_throw in H; exact (Hr _ _ _ H)|].
      destruct (Ascii.eqb c' "{"); apply prepend_throw in H.
      * exact (Hr' c' r' eq_refl _ _ _ H).
      * exact (Hr _ _ _ H).
    + destruct (Ascii.eqb c "}"); [|exact (Hr _ _ _ H)].
      destruct r as [|c' r']; [right; congruence|].
      destruct (Ascii.eqb c' "}"); [|right; congruence].
      apply prepend_throw in H. exact (Hr' c' r' eq_refl _ _ _ H).
Qed.

(** A template that does not parse fails with one of the two brace errors. *)
Lemma parseFString_from_throw (s : string) :
  forall run var e, parseFString_from s run var = Throw e ->
                    e = unclosed_brace \/ e = single_brace.
Proof.
  enough (H : (forall run var e, parseFString_from s run var = Throw e ->
                                 e = unclosed_brace \/ e = single_brace)
              /\ (forall c' r', s = String c' r' ->
                    forall run var e, parseFString_from r' run var = Throw e ->
                                      e = unclosed_brace \/ e = single_brace))
    by exact (proj1 H).
  induction s as [|c r [IH1 IH2]].
  - split.
    + intros run var e H. destruct var; simpl in H; [left; congruence|discriminate H].
    + intros c' r' H. discriminate H.
  - split.
    + apply parseFString_from_throw_step; assumption.
    + intros c' r' H. inversion H; subst. exact IH1.
Qed.

Lemma fromMessages_throw (l : list MessageTemplate) (e : error) :
  fromMessages l = Throw e -> e = unclosed_brace \/ e = single_brace.
Proof.
  induction l as [|m l IH]; simpl; [discriminate|].
  destruct m as [t|v].
  - destruct (parseFString t) as [ns|e'] eqn:Ht.
    + destruct (fromMessages l); [discriminate|].
      intros H. apply IH. congruence.
    + intros H. inversion H; subst.
      exact (parseFString_from_throw _ _ _ _ Ht).
  - destruct (fromMessages l); [discriminate|].
    intros H. apply IH. congruence.
Qed.

(** The compiled prompt keeps the messages it was given. *)
Lemma fromMessages_ok (l p : list MessageTemplate) :
  fromMessages l = Ok p -> p = l.
Proof.
  revert p. induction l as [|m l IH]; intros p; simpl.
  - intros H. inversion H. reflexivity.
  - destruct m as [t|v].
    + destruct (parseFString t); [|discriminate].
      destruct (fromMessages l) as [p'|]; [|discriminate].
      intros H. inversion H. rewrite (IH p' eq_refl). reflexivity.
    + destruct (fromMessages l) as [p'|]; [|discriminate].
      intros H. inversion H. rewrite (IH p' eq_refl). reflexivity.
Qed.

(** The prompt compiles exactly when its two system templates parse, and
    the first that does not decides the error. *)
Lemma fromMessages_prompt (ts : list Tool) (p : nullable string) :
  fromMessages (prompt ts p)
  = match parseFString (combinedPrompt p) with
    | Throw e => Throw e
    | Ok _ => match parseFString (trailingSegment ts) with
              | Throw e => Throw e
              | Ok _ => Ok (prompt ts p)
              end
    end.
Proof.
  unfold prompt. cbn [fromMessages].
  destruct (parseFString (combinedPrompt p)); [|reflexivity].
  destruct (parseFString (trailingSegment ts)); reflexivity.
Qed.

Lemma fromMessages_prompt_ok (ts : list Tool) (p : nullable string) :
  is_ok (parseFString (combinedPrompt p)) = true ->
  is_ok (parseFString (trailingSegment ts)) = true ->
  fromMessages (prompt ts p) = Ok (prompt ts p).
Proof.
  intros H1 H2. rewrite fromMessages_prompt.
  destruct (parseFString (combinedPrompt p)); [|discriminate H1].
  destruct (parseFString (trailingSegment ts)); [reflexivity|discriminate H2].
Qed.

Lemma fromMessages_prompt_parses (ts : list Tool) (p : nullable string)
    (pr : ChatPromptTemplate) :
  fromMessages (prompt ts p) = Ok pr ->
  is_ok (parseFString (combinedPrompt p)) = true
  /\ is_ok (parseFString (trailingSegment ts)) = true.
Proof.
  rewrite fromMessages_prompt.
  destruct (parseFString (combinedPrompt p)); [|discriminate].
  destruct (parseFString (trailingSegment ts)); [|discriminate].
  split; reflexivity.
Qed.

(** What a successful [createAgent] was given and what it returns. *)
Lemma createAgent_ok_inv (env : nullable string) (llm : nullable LLM)
    (ts : list Tool) (p mi : nullable string) (ex : AgentExecutor) :
  createAgent env llm ts p mi = Ok ex ->
  exists m,
    llm = Val m
    /\ fromMessages (prompt ts p) = Ok (prompt ts p)
    /\ ex = {| agent := [ AssignScratchpad;
                          Prompt (prompt ts p);
                          Model (modelWithTools m ts);
                          OpenAIToolsAgentOutputParser ];
               tools := ts;
               verbose := debug_enabled env;
               maxIterations := parse_maxIterations mi |}.
Proof.
  unfold createAgent.
  destruct (fromMessages (prompt ts p)) as [pr|e] eqn:Hp; [|discriminate].
  pose proof (fromMessages_ok _ _ Hp) as ->.
  destruct llm as [| |m]; try discriminate.
  intros H. inversion H. exists m. repeat split.
Qed.

Lemma createAgent_ok_intro (env : nullable string) (m : LLM)
    (ts : list Tool) (p mi : nullable string) :
  fromMessages (prompt ts p) = Ok (prompt ts p) ->
  createAgent env (Val m) ts p mi
  = Ok {| agent := [ AssignScratchpad;
                     Prompt (prompt ts p);
                     Model (modelWithTools m ts);
                     OpenAIToolsAgentOutputParser ];
          tools := ts;
          verbose := debug_enabled env;
          maxIterations := parse_maxIterations mi |}.
Proof. intros H. unfold createAgent. rewrite H. reflexivity. Qed.

(** [createAgent] throws a brace error or a TypeError, nothing else. *)
Lemma createAgent_throw (env : nullable string) (llm : nullable LLM)
    (ts : list Tool) (p mi : nullable string) (e : error) :
  createAgent env llm ts p mi = Throw e ->
  e = unclosed_brace \/ e = single_brace \/ exists msg, e = TypeError msg.
Proof.
  unfold createAgent.
  destruct (fromMessages (prompt ts p)) as [pr|e'] eqn:Hp.
  - destruct llm; intros H; inversion H; right; right; eexists; reflexivity.
  - intros H. inversion H; subst.
    destruct (fromMessages_throw _ _ Hp) as [->| ->]; auto.
Qed.

(** Whether [createAgent] succeeds does not depend on [maxIterations] nor
    on the environment. *)
Lemma createAgent_is_ok (env env' : nullable string) (llm : nullable LLM)
    (ts : list Tool) (p mi mi' : nullable string) :
  is_ok (createAgent env llm ts p mi) = is_ok (createAgent env' llm ts p mi').
Proof.
  unfold createAgent.
  destruct (fromMessages (prompt ts p)); [|reflexivity].
  destruct llm; reflexivity.
Qed.

End Compiling.

(** C7: for every toolset with duplicate-free names, the model stage is the
    model wrapped by [bind], and it is the third stage of the pipeline of
    every executor [createAgent] returns; for a non-empty toolset its
    [tools] argument holds the conversion of each tool, at the tool's own
    position, so the entry names are the tool names in order and each tool's
    name names exactly one entry; for the empty toolset the model is still
    wrapped by [bind], with [tools: undefined]. *)
Theorem createAgent_model_binding (env : nullable string) (llm : LLM)
    (ts : list Tool) (p mi : nullable string) :
  NoDup (map tool_name ts) ->
  exists kw,
    modelWithTools llm ts = Binding llm kw
    /\ (forall ex, createAgent env (Val llm) ts p mi = Ok ex ->
                   agent ex !! 2%nat = Some (Model (Binding llm kw)))
    /\ match ts with
       | [] => kw_tools kw = None
       | _ :: _ =>
           exists entries,
             kw_tools kw = Some entries
             /\ entries = map convertToOpenAITool ts
             /\ length entries = length ts
             /\ map entry_name entries = map tool_name ts
             /\ forall t, t ∈ ts ->
                  count_occ string_dec (map entry_name entries) (tool_name t) = 1%nat
       end.
Proof.
  intros Hnd.
  eexists. split; [apply modelWithTools_cases|]. split.
  - intros ex Hex.
    destruct (createAgent_ok_inv _ _ _ _ _ _ Hex) as (m & Hm & _ & ->).
    inversion Hm; subst m. simpl. rewrite modelWithTools_cases. reflexivity.
  - destruct ts as [|t0 ts']; [reflexivity|].
    eexists. split; [reflexivity|]. split; [reflexivity|].
    split; [apply length_map|].
    split; [apply entry_names_convert|].
    intros t Ht. rewrite entry_names_convert.
    apply count_occ_NoDup_once; [exact Hnd|].
    apply list_elem_of_fmap_2. exact Ht.
Qed.

Lemma createAgent_model_binding_witness :
  NoDup (map tool_name [mkTool "search" "web search" "{}"; mkTool "calc" "calculator" "{}"])
  /\ exists kw,
       modelWithTools (ChatOpenAI "gpt")
         [mkTool "search" "web search" "{}"; mkTool "calc" "calculator" "{}"]
         = Binding (ChatOpenAI "gpt") kw
       /\ (forall ex,
             createAgent Undefined (Val (ChatOpenAI "gpt"))
               [mkTool "search" "web search" "{}"; mkTool "calc" "calculator" "{}"]
               (Val "You are a research assistant.") Undefined = Ok ex ->
             agent ex !! 2%nat = Some (Model (Binding (ChatOpenAI "gpt") kw)))
       /\ exists entries,
            kw_tools kw = Some entries
            /\ entries = map convertToOpenAITool
                           [mkTool "search" "web search" "{}"; mkTool "calc" "calculator" "{}"]
            /\ length entries = 2%nat
            /\ map entry_name entries = ["search"; "calc"]
            /\ forall t, t ∈ [mkTool "search" "web search" "{}"; mkTool "calc" "calculator" "{}"] ->
                 count_occ string_dec (map entry_name entries) (tool_name t) = 1%nat.
Proof.
  assert (Hnd : NoDup (map tool_name
            [mkTool "search" "web search" "{}"; mkTool "calc" "calculator" "{}"])).
  { simpl. apply NoDup_cons. split; [|apply NoDup_singleton].
    intros Hin. apply list_elem_of_singleton in Hin. discriminate Hin. }
  split; [exact Hnd|].
  exact (createAgent_model_binding Undefined (ChatOpenAI "gpt") _
           (Val "You are a research assistant.") Undefined Hnd).
Defined.

(** *** Doubles *)

Section Doubles.

Lemma round_div_1 (x : Z) : round_div x 1 = x.
Proof.
  unfold round_div. rewrite Z.mod_1_r, Z.div_1_r. reflexivity.
Qed.

Lemma round_div_exact (x d : Z) : (0 < d)%Z -> round_div (x * d) d = x.
Proof.
  intros Hd. unfold round_div.
  rewrite Z.mod_mul by lia. rewrite Z.div_mul by lia.
  replace (2 * 0 <? d)%Z with true by (symmetry; apply Z.ltb_lt; lia).
  reflexivity.
Qed.

Lemma reduce_shift (j : nat) (a : Z) :
  reduce (a * 2 ^ Z.of_nat j) j = (a, O).
Proof.
  revert a. induction j as [|j IH]; intros a.
  - simpl. f_equal. lia.
  - cbn [reduce].
    rewrite Nat2Z.inj_succ, Z.pow_succ_r by lia.
    replace (a * (2 * 2 ^ Z.of_nat j))%Z with (2 * (a * 2 ^ Z.of_nat j))%Z by lia.
    rewrite Z.even_mul. cbn [Z.even orb].
    rewrite Z.div2_div, Z.mul_comm, Z.div_mul by lia. apply IH.
Qed.

(** An integer up to [2^53] is a double as it stands. *)
Lemma to_double_integer (neg : bool) (k : N) :
  (k <= 2 ^ 53)%N -> to_double neg k 0 = Finite neg k 0.
Proof.
  intros Hk. unfold to_double.
  destruct (k =? 0)%N eqn:Hz; [apply N.eqb_eq in Hz; subst; reflexivity|].
  apply N.eqb_neq in Hz.
  cbn [Z.leb Z.compare Z.pow]. rewrite Z.mul_1_r.
  set (a := Z.of_N k).
  assert (Ha : (0 < a)%Z) by (unfold a; lia).
  assert (Hle : (a <= 2 ^ 53)%Z).
  { unfold a. change (2 ^ 53)%Z with (Z.of_N (2 ^ 53)). lia. }
  change (Z.log2 1) with 0%Z. rewrite Z.sub_0_r.
  pose proof (Z.log2_nonneg a) as Hl0.
  pose proof (Z.log2_spec a Ha) as [Hlo Hhi].
  assert (Hl53 : (Z.log2 a <= 53)%Z).
  { change 53%Z with (Z.log2 (2 ^ 53)). apply Z.log2_le_mono. exact Hle. }
  replace (0 <=? Z.log2 a)%Z with true by (symmetry; apply Z.leb_le; lia).
  replace (1 * 2 ^ Z.log2 a <=? a)%Z with true by (symmetry; apply Z.leb_le; lia).
  set (l := Z.log2 a) in *.
  replace (Z.max (l - 52) (-1074)) with (l - 52)%Z by lia.
  replace (1024 <=? l)%Z with false by (symmetry; apply Z.leb_gt; lia).
  replace (l - 52 =? 971)%Z with false by (symmetry; apply Z.eqb_neq; lia).
  cbn [orb andb].
  destruct (Z.leb_spec 0 (l - 52)) as [He|He].
  - (* the last bit kept is a whole bit *)
    assert (Hdiv : (a = (a / 2 ^ (l - 52)) * 2 ^ (l - 52))%Z).
    { assert (l = 52 \/ l = 53)%Z as [->| ->] by lia.
      - change (2 ^ (52 - 52))%Z with 1%Z. rewrite Z.div_1_r. lia.
      - assert (a = 2 ^ 53)%Z as -> by (rewrite Z.pow_succ_r in Hhi; lia).
        reflexivity. }
    rewrite Z.mul_1_l.
    assert (Hp : (0 < 2 ^ (l - 52))%Z) by (apply Z.pow_pos_nonneg; lia).
    rewrite Hdiv at 1. rewrite (round_div_exact _ _ Hp).
    rewrite <- Hdiv. unfold a. rewrite N2Z.id. reflexivity.
  - rewrite round_div_1.
    replace (- (l - 52))%Z with (Z.of_nat (Z.to_nat (52 - l))) by lia.
    rewrite Nat2Z.id, reduce_shift.
    unfold a. rewrite N2Z.id. reflexivity.
Qed.

End Doubles.

(** *** parseFloat *)

Section ParseFloat.

Lemma to_uint_not_Nil (k : nat) : Nat.to_uint k <> Decimal.Nil.
Proof.
  intros H. pose proof (DecimalNat.Unsigned.of_to k) as Hk.
  rewrite H in Hk. simpl in Hk. subst k. discriminate H.
Qed.

(** Reading back the digits printed for a decimal numeral. *)
Lemma take_digits_string_of_uint (d : Decimal.uint) :
  exists ds,
    take_digits (NilEmpty.string_of_uint d) = (ds, "")
    /\ (d <> Decimal.Nil -> ds <> [])
    /\ forall acc : nat,
         fold_left (fun a x => 10 * a + x)%N ds (N.of_nat acc)
         = N.of_nat (Nat.of_uint_acc d acc).
Proof.
  induction d as [|d [ds [Htd [_ Hval]]]|d [ds [Htd [_ Hval]]]|d [ds [Htd [_ Hval]]]
                  |d [ds [Htd [_ Hval]]]|d [ds [Htd [_ Hval]]]|d [ds [Htd [_ Hval]]]
                  |d [ds [Htd [_ Hval]]]|d [ds [Htd [_ Hval]]]|d [ds [Htd [_ Hval]]]
                  |d [ds [Htd [_ Hval]]]].
  1: { exists []. split; [reflexivity|]. split; [congruence|]. reflexivity. }
  all: eexists (_ :: ds); cbn [NilEmpty.string_of_uint take_digits];
    (split; [cbn; rewrite Htd; reflexivity|]);
    (split; [discriminate|]);
    intros acc; cbn [fold_left Nat.of_uint_acc]; rewrite <- Hval; f_equal;
    rewrite Nat.tail_mul_spec;
    match goal with
    | |- context [(N_of_ascii ?c - 48)%N] =>
        let v := eval vm_compute in (N_of_ascii c - 48)%N in
        change (N_of_ascii c - 48)%N with v
    end; lia.
Qed.

Lemma trim_start_keep (c : ascii) (s : string) :
  is_space c = false -> trim_start (String c s) = String c s.
Proof. intros H. simpl. rewrite H. reflexivity. Qed.

Lemma take_sign_none (c : ascii) (s : string) :
  c <> "-"%char -> c <> "+"%char -> take_sign (String c s) = (false, String c s).
Proof.
  intros Hm Hp.
  destruct c as [[] [] [] [] [] [] [] []]; try reflexivity; congruence.
Qed.

Lemma starts_with_Infinity_no (c : ascii) (s : string) :
  c <> "I"%char -> starts_with "Infinity" (String c s) = false.
Proof.
  intros H.
  change (starts_with "Infinity" (String c s))
    with (if Ascii.eqb "I" c then starts_with "nfinity" s else false).
  destruct (Ascii.eqb_spec "I" c) as [E|E]; [congruence|reflexivity].
Qed.

Lemma take_digits_cons (c : ascii) (s : string) (v : N) :
  digit_of c = Some v ->
  take_digits (String c s) = (v :: (take_digits s).1, (take_digits s).2).
Proof. intros H. simpl. rewrite H. destruct (take_digits s). reflexivity. Qed.

Lemma take_digits_stop (c : ascii) (s : string) :
  digit_of c = None -> take_digits (String c s) = ([], String c s).
Proof. intros H. simpl. rewrite H. reflexivity. Qed.

(** A decimal digit is no white space, no sign, no dot and not [I]. *)
Lemma digit_char (c : ascii) (v : N) :
  digit_of c = Some v ->
  is_space c = false /\ c <> "-"%char /\ c <> "+"%char /\ c <> "I"%char.
Proof.
  destruct c as [[] [] [] [] [] [] [] []]; intros H; vm_compute in H;
    try discriminate H; repeat split; discriminate.
Qed.

Lemma parseFloat_digits (c : ascii) (v : N) (rest : string) (ds : list N) :
  digit_of c = Some v ->
  take_digits rest = (ds, "") ->
  parseFloat (String c rest) = to_double false (digits_value (v :: ds)) 0.
Proof.
  intros Hc Hrest.
  destruct (digit_char c v Hc) as (Hsp & Hm & Hp & HI).
  unfold parseFloat.
  rewrite (trim_start_keep _ _ Hsp), (take_sign_none _ _ Hm Hp).
  rewrite (starts_with_Infinity_no _ _ HI).
  rewrite (take_digits_cons _ _ _ Hc), Hrest. reflexivity.
Qed.

(** The printed form of a non-negative integer is read as the double
    nearest to that integer. *)
Lemma parseFloat_string_of_nat (k : nat) :
  parseFloat (string_of_nat k) = to_double false (N.of_nat k) 0.
Proof.
  unfold string_of_nat.
  pose proof (to_uint_not_Nil k) as Hnil.
  pose proof (DecimalNat.Unsigned.of_to k) as Hk.
  destruct (take_digits_string_of_uint (Nat.to_uint k)) as (ds & Htd & Hne & Hval).
  specialize (Hval 0%nat). fold (Nat.of_uint (Nat.to_uint k)) in Hval.
  rewrite Hk in Hval. rewrite <- Hval. clear Hval Hk Hne.
  destruct (Nat.to_uint k) as [|d|d|d|d|d|d|d|d|d|d]; [congruence|..].
  all: cbn [NilEmpty.string_of_uint] in *.
  all: match type of Htd with
       | take_digits (String ?c ?r) = _ =>
           destruct (take_digits r) as [ds' r'] eqn:Hr;
           cbn in Htd; rewrite Hr in Htd; inversion Htd; subst;
           erewrite parseFloat_digits; [reflexivity|reflexivity|exact Hr]
       end.
Qed.

(** Up to [2^53] it is read as that integer. *)
Lemma parseFloat_string_of_nat_exact (k : nat) :
  (N.of_nat k <= 2 ^ 53)%N ->
  parseFloat (string_of_nat k) = Finite false (N.of_nat k) 0.
Proof.
  intros Hk. rewrite parseFloat_string_of_nat. apply to_double_integer. exact Hk.
Qed.

(** The parser answers [NaN] when, past the leading white space, the
    input is over or starts with something no StrDecimalLiteral starts with. *)
Lemma parseFloat_NaN_head (s : string) :
  match trim_start s with
  | EmptyString => True
  | String c _ =>
      digit_of c = None /\ c <> "-"%char /\ c <> "+"%char
      /\ c <> "."%char /\ c <> "I"%char
  end ->
  parseFloat s = NaN.
Proof.
  unfold parseFloat.
  destruct (trim_start s) as [|c r]; [reflexivity|].
  intros (Hd & Hm & Hp & Hdot & HI).
  rewrite (take_sign_none _ _ Hm Hp), (starts_with_Infinity_no _ _ HI).
  rewrite (take_digits_stop _ _ Hd).
  destruct c as [[] [] [] [] [] [] [] []]; try reflexivity; congruence.
Qed.

End ParseFloat.

(** *** The iteration cap *)

Section MaxIterations.

Lemma parse_maxIterations_cases (mi : nullable string) :
  parse_maxIterations mi
    = if truthy_opt mi then Some (parseFloat (concat_operand mi)) else None.
Proof. destruct mi as [| |[|c s]]; reflexivity. Qed.

Lemma string_of_nat_truthy (k : nat) : truthy_string (string_of_nat k) = true.
Proof.
  unfold string_of_nat. pose proof (to_uint_not_Nil k) as H.
  destruct (Nat.to_uint k); [congruence|reflexivity..].
Qed.

(** A limit written as a non-negative integer up to [2^53] reaches the
    executor as that integer. *)
Lemma parse_maxIterations_string_of_nat (k : nat) :
  (N.of_nat k <= 2 ^ 53)%N ->
  cap_of (parse_maxIterations (Val (string_of_nat k))) = Some (Some k).
Proof.
  intros Hk. simpl.
  rewrite string_of_nat_truthy, (parseFloat_string_of_nat_exact k Hk). simpl.
  rewrite Nat2N.id. reflexivity.
Qed.

(** Whether construction goes through does not depend on what the
    [maxIterations] input holds. *)
Lemma init_is_ok_maxIterations (env : nullable string) (tin : nullable (list ToolEntry))
    (p wn : nullable string) (sup : nullable Supervisor) (mi mi' : nullable string)
    (tr : list event) :
  is_ok (init env {| inputs := Some {| in_tools := tin; in_workerPrompt := p;
                                       in_workerName := wn; in_supervisor := sup;
                                       in_maxIterations := mi |} |} tr).1
  = is_ok (init env {| inputs := Some {| in_tools := tin; in_workerPrompt := p;
                                         in_workerName := wn; in_supervisor := sup;
                                         in_maxIterations := mi' |} |} tr).1.
Proof.
  unfold init.
  cbn [inputs opt_chain in_tools in_workerPrompt in_workerName in_supervisor
       in_maxIterations].
  destruct wn as [| |wn]; try reflexivity.
  destruct (truthy_string wn); [|reflexivity]. cbn [negb].
  destruct sup as [| |sup]; try reflexivity.
  pose proof (createAgent_is_ok env env (sup_llm sup) (flatten tin) p mi mi') as H.
  destruct (createAgent env (sup_llm sup) (flatten tin) p mi);
    destruct (createAgent env (sup_llm sup) (flatten tin) p mi');
    simpl in H; try discriminate H; reflexivity.
Qed.

End MaxIterations.

(** C3, the claim as stated fails: the input ["abc"] is not parseable as a
    number, and the executor compiled from it is given [NaN] as its
    [maxIterations], not the [undefined] it is given when no limit is set. *)
Lemma maxIterations_unparsable_differs_from_absent :
  parseFloat "abc" = NaN
  /\ exists ex_abc ex_absent,
       createAgent Undefined (Val (ChatOpenAI "gpt-4")) []
                   (Val "You are a research assistant.") (Val "abc") = Ok ex_abc
       /\ createAgent Undefined (Val (ChatOpenAI "gpt-4")) []
                      (Val "You are a research assistant.") Undefined = Ok ex_absent
       /\ maxIterations ex_abc = Some NaN
       /\ maxIterations ex_absent = None
       /\ maxIterations ex_abc <> maxIterations ex_absent.
Proof.
  split; [reflexivity|].
  eexists _, _. split; [reflexivity|]. split; [reflexivity|].
  split; [reflexivity|]. split; [reflexivity|]. discriminate.
Qed.

(** C3, amended: when the raw [maxIterations] is absent or the empty string,
    the executor is given [undefined], which is the unbounded cap, the same
    as when no limit is given; when it is a non-empty string that
    [parseFloat] cannot read, the executor is given [NaN]; and such an input
    is not treated as an error: construction goes through on it exactly when
    it goes through without a limit. *)
Theorem createAgent_maxIterations_unparsable (env : nullable string) (llm : LLM)
    (ts : list Tool) (tin : nullable (list ToolEntry)) (p mi wn : nullable string)
    (sup : nullable Supervisor) (tr : list event) (ex : AgentExecutor) :
  match mi with Val s => parseFloat s = NaN | Null | Undefined => True end ->
  createAgent env (Val llm) ts p mi = Ok ex ->
  maxIterations ex = (if truthy_opt mi then Some NaN else None)
  /\ (truthy_opt mi = false ->
      cap_of (maxIterations ex) = Some None
      /\ forall scratchpad, reached None scratchpad = false)
  /\ is_ok (createAgent env (Val llm) ts p mi)
     = is_ok (createAgent env (Val llm) ts p Undefined)
  /\ is_ok (init env {| inputs := Some {| in_tools := tin; in_workerPrompt := p;
                                          in_workerName := wn; in_supervisor := sup;
                                          in_maxIterations := mi |} |} tr).1
     = is_ok (init env {| inputs := Some {| in_tools := tin; in_workerPrompt := p;
                                            in_workerName := wn; in_supervisor := sup;
                                            in_maxIterations := Undefined |} |} tr).1.
Proof.
  intros Hmi Hex.
  destruct (createAgent_ok_inv _ _ _ _ _ _ Hex) as (m & _ & _ & ->).
  cbn [maxIterations]. rewrite parse_maxIterations_cases.
  split; [|split; [|split]].
  - destruct mi as [| |s]; simpl in *; try reflexivity.
    rewrite Hmi. reflexivity.
  - intros Hf. rewrite Hf. split; reflexivity.
  - apply createAgent_is_ok.
  - apply init_is_ok_maxIterations.
Qed.

Lemma createAgent_maxIterations_unparsable_witness :
  exists ex_three ex_empty,
    (maxIterations ex_three = Some NaN
     /\ cap_of (maxIterations ex_empty) = Some None
     /\ (forall scratchpad, reached None scratchpad = false)
     /\ maxIterations ex_empty = None)
    /\ createAgent Undefined (Val (ChatOpenAI "gpt-4")) [Scenario.search]
         (Val "You are a research assistant.") (Val "three") = Ok ex_three
    /\ createAgent Undefined (Val (ChatOpenAI "gpt-4")) [Scenario.search]
         (Val "You are a research assistant.") (Val "") = Ok ex_empty.
Proof.
  eexists _, _. split; [|split; reflexivity].
  pose proof (createAgent_maxIterations_unparsable Undefined (ChatOpenAI "gpt-4")
                [Scenario.search] (Val [OneTool Scenario.search])
                (Val "You are a research assistant.") (Val "three") (Val "researcher")
                (Val Scenario.supervisor) [] _ eq_refl eq_refl) as (H1 & _).
  pose proof (createAgent_maxIterations_unparsable Undefined (ChatOpenAI "gpt-4")
                [Scenario.search] (Val [OneTool Scenario.search])
                (Val "You are a research assistant.") (Val "") (Val "researcher")
                (Val Scenario.supervisor) [] _ eq_refl eq_refl) as (H2 & H3 & _).
  split; [exact H1|]. split; [exact (proj1 (H3 eq_refl))|].
  split; [exact (proj2 (H3 eq_refl))|exact H2].
Defined.

(** *** Construction *)

Section Construction.

Lemma init_throws_without_name (env : nullable string) (nd : INodeData)
    (tr : list event) :
  truthy_opt (opt_chain (inputs nd) in_workerName) = false ->
  init env nd tr = (Throw name_required, tr).
Proof.
  intros H. unfold init.
  destruct (opt_chain (inputs nd) in_workerName) as [| |wn]; try reflexivity.
  simpl in H. rewrite H. reflexivity.
Qed.

(** What a successful construction has gone through. *)
Lemma init_ok_inv (env : nullable string) (nd : INodeData) (tr tr' : list event)
    (w : IMultiAgentNode) :
  init env nd tr = (Ok w, tr') ->
  exists wn sup llm,
    opt_chain (inputs nd) in_workerName = Val wn
    /\ truthy_string wn = true
    /\ opt_chain (inputs nd) in_supervisor = Val sup
    /\ sup_llm sup = Val llm
    /\ w = {| node :=
                {| wn_agent :=
                     {| agent :=
                          [ AssignScratchpad;
                            Prompt (prompt (flatten (opt_chain (inputs nd) in_tools))
                                           (opt_chain (inputs nd) in_workerPrompt));
                            Model (modelWithTools llm
                                     (flatten (opt_chain (inputs nd) in_tools)));
                            OpenAIToolsAgentOutputParser ];
                        tools := flatten (opt_chain (inputs nd) in_tools);
                        verbose := debug_enabled env;
                        maxIterations :=
                          parse_maxIterations (opt_chain (inputs nd) in_maxIterations) |};
                   wn_name := wn |};
              name := wn;
              node_type := "worker";
              parentSupervisorName := nullish (sup_name sup) "supervisor" |}
    /\ tr' = (tr ++ [AgentCompiled (wn_agent (node w))])%list
    /\ createAgent env (sup_llm sup)
         (flatten (opt_chain (inputs nd) in_tools))
         (opt_chain (inputs nd) in_workerPrompt)
         (opt_chain (inputs nd) in_maxIterations) = Ok (wn_agent (node w)).
Proof.
  unfold init.
  destruct (opt_chain (inputs nd) in_workerName) as [| |wn] eqn:Hwn; simpl;
    try discriminate.
  destruct (truthy_string wn) eqn:Ht; simpl; [|discriminate].
  destruct (opt_chain (inputs nd) in_supervisor) as [| |sup] eqn:Hsup;
    try discriminate.
  destruct (createAgent env (sup_llm sup)
              (flatten (opt_chain (inputs nd) in_tools))
              (opt_chain (inputs nd) in_workerPrompt)
              (opt_chain (inputs nd) in_maxIterations)) as [ex|e] eqn:Hex;
    [|discriminate].
  destruct (createAgent_ok_inv _ _ _ _ _ _ Hex) as (llm & Hllm & _ & Hrec).
  unfold Eff.bind, modify, ret. intros H. inversion H; subst; clear H.
  exists wn, sup, llm. repeat split; reflexivity || assumption.
Qed.

(** What a construction that fails ends in. *)
Lemma init_throw_inv (env : nullable string) (nd : INodeData) (tr tr' : list event)
    (e : error) :
  init env nd tr = (Throw e, tr') ->
  tr' = tr
  /\ (e = name_required \/ e = unclosed_brace \/ e = single_brace
      \/ exists msg, e = TypeError msg).
Proof.
  unfold init.
  destruct (opt_chain (inputs nd) in_workerName) as [| |wn];
    try solve [intros H; inversion H; split; [reflexivity|left; reflexivity]].
  destruct (truthy_string wn); simpl;
    [|intros H; inversion H; split; [reflexivity|left; reflexivity]].
  destruct (opt_chain (inputs nd) in_supervisor) as [| |sup];
    try solve [intros H; inversion H; subst; split; [reflexivity|];
               right; right; right; eexists; reflexivity].
  destruct (createAgent env (sup_llm sup)
              (flatten (opt_chain (inputs nd) in_tools))
              (opt_chain (inputs nd) in_workerPrompt)
              (opt_chain (inputs nd) in_maxIterations)) as [ex|e'] eqn:Hex;
    intros H; inversion H; subst.
  split; [reflexivity|]. right. exact (createAgent_throw _ _ _ _ _ _ Hex).
Qed.

End Construction.

(** C4: when [workerName] is absent ([undefined], [null]) or the empty
    string, [init] throws [Error('Worker name is required!')] and the record
    of compiled agents is as it was, so no agent has been compiled (and no
    node exists to run a loop); when [workerName] is a non-empty string,
    [init] does not end in that error. *)
Theorem init_workerName_validation (env : nullable string) (nd : INodeData)
    (tr : list event) :
  match opt_chain (inputs nd) in_workerName with
  | Val (String _ _) => (init env nd tr).1 <> Throw name_required
  | Val EmptyString | Null | Undefined => init env nd tr = (Throw name_required, tr)
  end.
Proof.
  destruct (opt_chain (inputs nd) in_workerName) as [| |[|c wn]] eqn:Hwn;
    try (apply init_throws_without_name; rewrite Hwn; reflexivity).
  destruct (init env nd tr) as [[w|e] tr'] eqn:H; simpl; [discriminate|].
  intros He. inversion He; subst e. revert H.
  unfold init. rewrite Hwn. cbn [truthy_string negb].
  destruct (opt_chain (inputs nd) in_supervisor) as [| |sup]; try discriminate.
  destruct (createAgent env (sup_llm sup)
              (flatten (opt_chain (inputs nd) in_tools))
              (opt_chain (inputs nd) in_workerPrompt)
              (opt_chain (inputs nd) in_maxIterations)) as [ex|e'] eqn:Hex;
    [discriminate|].
  intros H. inversion H; subst.
  destruct (createAgent_throw _ _ _ _ _ _ Hex) as [H1|[H1|[msg H1]]];
    discriminate H1.
Qed.

(** C10: when [init] returns a worker, the supervisor handle was given, and
    the worker's [parentSupervisorName] is ['supervisor'] if the handle's
    [name] is [null] or [undefined], and that [name] otherwise. *)
Theorem init_parentSupervisorName (env : nullable string) (nd : INodeData)
    (tr tr' : list event) (w : IMultiAgentNode) :
  init env nd tr = (Ok w, tr') ->
  exists sup,
    opt_chain (inputs nd) in_supervisor = Val sup
    /\ parentSupervisorName w
       = match sup_name sup with
         | Null | Undefined => "supervisor"
         | Val n => n
         end.
Proof.
  intros H. destruct (init_ok_inv _ _ _ _ _ H) as (wn & sup & llm & _ & _ & Hsup & _ & Hw & _).
  exists sup. split; [exact Hsup|].
  rewrite Hw. simpl. destruct (sup_name sup); reflexivity.
Qed.

Lemma init_parentSupervisorName_witness :
  exists sup,
    opt_chain (inputs Scenario.searcher) in_supervisor = Val sup
    /\ parentSupervisorName Scenario.searcher_worker
       = match sup_name sup with
         | Null | Undefined => "supervisor"
         | Val n => n
         end.
Proof.
  apply (init_parentSupervisorName Undefined Scenario.searcher []
           [AgentCompiled Scenario.searcher_agent] Scenario.searcher_worker).
  reflexivity.
Defined.

(** *** The worker node *)

Section WorkerNode.

Variable invoke : AgentExecutor -> loc -> RunnableConfig -> M (gmap loc ITeamState) ChainValues.

(** The node writes nothing itself: the store it leaves is the store the
    executor's [invoke] leaves. *)
Lemma agentNode_store (state : loc) (a : AgentExecutor) (n : string)
    (cfg : RunnableConfig) (h : gmap loc ITeamState) :
  (agentNode invoke state a n cfg h).2 = (invoke a state cfg h).2.
Proof.
  unfold agentNode, Eff.bind.
  destruct (invoke a state cfg h) as [[r|e] h']; reflexivity.
Qed.

Lemma agentNode_ok (state : loc) (a : AgentExecutor) (n : string)
    (cfg : RunnableConfig) (h h' : gmap loc ITeamState) (r : ChainValues) :
  invoke a state cfg h = (Ok r, h') ->
  agentNode invoke state a n cfg h
    = (Ok {| delta_messages := [HumanMessage (output r) n] |}, h').
Proof. intros H. unfold agentNode, Eff.bind. rewrite H. reflexivity. Qed.

(** A failed [invoke] is passed on: no delta is returned. *)
Lemma agentNode_throw (state : loc) (a : AgentExecutor) (n : string)
    (cfg : RunnableConfig) (h h' : gmap loc ITeamState) (e : error) :
  invoke a state cfg h = (Throw e, h') ->
  agentNode invoke state a n cfg h = (Throw e, h').
Proof. intros H. unfold agentNode, Eff.bind. rewrite H. reflexivity. Qed.

End WorkerNode.

Section Appending.

Lemma apply_delta_messages (st : ITeamState) (ms : list Message) :
  messages (apply_delta st {| delta_messages := ms |}) = (messages st ++ ms)%list.
Proof. reflexivity. Qed.

(** Appending keeps every earlier message at its index. *)
Lemma apply_delta_keeps (st : ITeamState) (d : StateDelta) (i : nat) (m : Message) :
  messages st !! i = Some m -> messages (apply_delta st d) !! i = Some m.
Proof. intros H. simpl. apply lookup_app_l_Some. exact H. Qed.

End Appending.

(** C5: for a worker returned by [init] and a state on which the executor's
    [invoke] succeeds with result [r], the node returns a delta whose
    [messages] is one message, with content [r.output] and with the
    configured [workerName] as its name; folded into a team state by
    appending, it leaves every earlier message at its index and adds one. *)
Theorem workerNode_delta
    (invoke : AgentExecutor -> loc -> RunnableConfig -> M (gmap loc ITeamState) ChainValues)
    (env : nullable string) (nd : INodeData) (tr tr' : list event)
    (w : IMultiAgentNode) (state : loc) (cfg : RunnableConfig)
    (h h' : gmap loc ITeamState) (r : ChainValues) :
  init env nd tr = (Ok w, tr') ->
  invoke (wn_agent (node w)) state cfg h = (Ok r, h') ->
  exists m,
    workerNode invoke (node w) state cfg h = (Ok {| delta_messages := [m] |}, h')
    /\ content m = output r
    /\ opt_chain (inputs nd) in_workerName = Val (name w)
    /\ msg_name m = Some (name w)
    /\ forall st : ITeamState,
         length (messages (apply_delta st {| delta_messages := [m] |}))
           = S (length (messages st))
         /\ forall i old, messages st !! i = Some old ->
              messages (apply_delta st {| delta_messages := [m] |}) !! i = Some old.
Proof.
  intros Hinit Hinv.
  destruct (init_ok_inv _ _ _ _ _ Hinit) as (wn & sup & llm & Hwn & _ & _ & _ & Hw & _).
  exists (HumanMessage (output r) (wn_name (node w))).
  split; [apply agentNode_ok; exact Hinv|].
  split; [reflexivity|].
  split; [rewrite Hwn, Hw; reflexivity|].
  split; [rewrite Hw; reflexivity|].
  intros st. split.
  - rewrite apply_delta_messages, length_app. simpl. lia.
  - intros i old Hold. apply apply_delta_keeps. exact Hold.
Qed.

Lemma workerNode_delta_witness :
  exists m,
    workerNode (stub_invoke Scenario.answers_at_once Scenario.echo 4)
               (node Scenario.summarizer_worker) Scenario.state Scenario.config
               Scenario.store
      = (Ok {| delta_messages := [m] |}, Scenario.store)
    /\ content m = "Summary: ..."
    /\ opt_chain (inputs Scenario.summarizer) in_workerName = Val "worker"
    /\ msg_name m = Some "worker"
    /\ forall st : ITeamState,
         length (messages (apply_delta st {| delta_messages := [m] |}))
           = S (length (messages st))
         /\ forall i old, messages st !! i = Some old ->
              messages (apply_delta st {| delta_messages := [m] |}) !! i = Some old.
Proof.
  apply (workerNode_delta (stub_invoke Scenario.answers_at_once Scenario.echo 4)
           Undefined Scenario.summarizer [] [AgentCompiled Scenario.summarizer_agent]
           Scenario.summarizer_worker Scenario.state Scenario.config
           Scenario.store Scenario.store
           {| output := "Summary: ...";
              others := {[ finish_key := render_finish NaturalFinish ]} |}).
  - reflexivity.
  - reflexivity.
Defined.

(** C6: for every executor whose [invoke] leaves the state object it is
    handed as it found it, the worker node leaves that object as it found
    it: the node adds no write of its own, its effect is the value it
    returns. *)
Theorem workerNode_leaves_state
    (invoke : AgentExecutor -> loc -> RunnableConfig -> M (gmap loc ITeamState) ChainValues)
    (w : WorkerNode) (state : loc) (cfg : RunnableConfig) (h : gmap loc ITeamState) :
  (invoke (wn_agent w) state cfg h).2 !! state = h !! state ->
  (workerNode invoke w state cfg h).2 !! state = h !! state
  /\ (workerNode invoke w state cfg h).2 = (invoke (wn_agent w) state cfg h).2.
Proof.
  intros Hframe. unfold workerNode. rewrite agentNode_store.
  split; [exact Hframe|reflexivity].
Qed.

Lemma workerNode_leaves_state_witness :
  (workerNode (stub_invoke Scenario.always_searches Scenario.echo 4)
              (node Scenario.searcher_worker) Scenario.state Scenario.config
              Scenario.store).2 !! Scenario.state
    = Scenario.store !! Scenario.state
  /\ (workerNode (stub_invoke Scenario.always_searches Scenario.echo 4)
                 (node Scenario.searcher_worker) Scenario.state Scenario.config
                 Scenario.store).2
     = (stub_invoke Scenario.always_searches Scenario.echo 4
          (wn_agent (node Scenario.searcher_worker)) Scenario.state Scenario.config
          Scenario.store).2.
Proof.
  apply (workerNode_leaves_state (stub_invoke Scenario.always_searches Scenario.echo 4)
           (node Scenario.searcher_worker) Scenario.state Scenario.config Scenario.store).
  reflexivity.
Defined.

(** X18: the node passes on the [output] text of the executor's result and
    nothing else of it: when [invoke] returns, the node returns one message
    holding that text and the worker name, so two results with the same
    [output] give the same returned delta, whatever else they hold. *)
Theorem workerNode_returns_output_only
    (invoke1 invoke2 : AgentExecutor -> loc -> RunnableConfig
                       -> M (gmap loc ITeamState) ChainValues)
    (w : WorkerNode) (state : loc) (cfg : RunnableConfig)
    (h1 h2 h1' h2' : gmap loc ITeamState) (r1 r2 : ChainValues) :
  invoke1 (wn_agent w) state cfg h1 = (Ok r1, h1') ->
  invoke2 (wn_agent w) state cfg h2 = (Ok r2, h2') ->
  output r1 = output r2 ->
  (workerNode invoke1 w state cfg h1).1
    = Ok {| delta_messages := [HumanMessage (output r1) (wn_name w)] |}
  /\ (workerNode invoke1 w state cfg h1).1 = (workerNode invoke2 w state cfg h2).1.
Proof.
  intros H1 H2 Hout. unfold workerNode.
  rewrite (agentNode_ok invoke1 _ _ _ _ _ _ _ H1).
  rewrite (agentNode_ok invoke2 _ _ _ _ _ _ _ H2).
  rewrite Hout. split; reflexivity.
Qed.

Lemma workerNode_returns_output_only_witness :
  (workerNode (fun _ _ _ => ret {| output := "Done."; others := {[ "steps" := "3" ]} |})
              (node Scenario.searcher_worker) Scenario.state Scenario.config
              Scenario.store).1
    = Ok {| delta_messages := [HumanMessage "Done." "researcher"] |}
  /\ (workerNode (fun _ _ _ => ret {| output := "Done."; others := {[ "steps" := "3" ]} |})
                 (node Scenario.searcher_worker) Scenario.state Scenario.config
                 Scenario.store).1
     = (workerNode (fun _ _ _ => ret {| output := "Done."; others := ∅ |})
                   (node Scenario.searcher_worker) Scenario.state Scenario.config
                   Scenario.store).1.
Proof.
  apply (workerNode_returns_output_only
           (fun _ _ _ => ret {| output := "Done."; others := {[ "steps" := "3" ]} |})
           (fun _ _ _ => ret {| output := "Done."; others := ∅ |})
           (node Scenario.searcher_worker) Scenario.state Scenario.config
           Scenario.store Scenario.store Scenario.store Scenario.store
           {| output := "Done."; others := {[ "steps" := "3" ]} |}
           {| output := "Done."; others := ∅ |});
    reflexivity.
Defined.

(** *** The loop *)

Section LoopRounds.

Variable model : ITeamState -> list ConversationStep -> outcome ModelOutput.
Variable dispatch : ToolInvocation -> ToolResult.
Variable history : ITeamState.

(** The model asks for tools whatever the scratchpad holds. *)
Hypothesis always_tools :
  forall sc, exists t calls, model history sc = Ok (ToolCalls t calls).

(** With [n] rounds left before the cap and fuel for them, the loop makes
    exactly those [n] model calls and stops by force. *)
Lemma loop_runs_to_cap (k n : nat) :
  forall (fuel : nat) (sc : list ConversationStep) (rounds : nat) (last : string),
    (length sc + n = k)%nat ->
    (n < fuel)%nat ->
    exists r,
      loop model dispatch fuel (Some k) history sc rounds last = Some (Ok r)
      /\ res_finish r = ForcedStop
      /\ res_rounds r = (rounds + n)%nat
      /\ length (res_steps r) = k.
Proof.
  induction n as [|n IH]; intros fuel sc rounds last Hlen Hfuel.
  - destruct fuel as [|fuel]; [lia|]. simpl.
    replace (k <=? length sc)%nat with true by (symmetry; apply Nat.leb_le; lia).
    eexists. split; [reflexivity|]. simpl. repeat split; lia.
  - destruct fuel as [|fuel]; [lia|]. simpl.
    replace (k <=? length sc)%nat with false by (symmetry; apply Nat.leb_gt; lia).
    destruct (always_tools sc) as (t & calls & Hm). rewrite Hm.
    destruct (IH fuel
                (sc ++ [ {| action := ToolCalls t calls;
                            observation := map dispatch calls |} ])%list
                (S rounds) t) as (r & Hr & Hf & Hn & Hs).
    + rewrite length_app. simpl. lia.
    + lia.
    + exists r. repeat split; try assumption. lia.
Qed.

End LoopRounds.

Section LoopWithoutCap.

Variable model : ITeamState -> list ConversationStep -> outcome ModelOutput.
Variable dispatch : ToolInvocation -> ToolResult.
Variable history : ITeamState.
Variable n : nat.
Variable answer : string.

(** The model asks for tools [n] times and answers in round [n + 1]. *)
Hypothesis tools_first :
  forall sc, (length sc < n)%nat ->
             exists t calls, model history sc = Ok (ToolCalls t calls).
Hypothesis answers_then :
  forall sc, length sc = n -> model history sc = Ok (FinalAnswer answer).

Lemma loop_without_cap_from (m : nat) :
  forall (fuel : nat) (sc : list ConversationStep) (rounds : nat) (last : string),
    (length sc + m = n)%nat ->
    (m < fuel)%nat ->
    exists r,
      loop model dispatch fuel None history sc rounds last = Some (Ok r)
      /\ res_finish r = NaturalFinish
      /\ res_output r = answer
      /\ res_rounds r = S (rounds + m).
Proof.
  induction m as [|m IH]; intros fuel sc rounds last Hlen Hfuel;
    (destruct fuel as [|fuel]; [lia|]); simpl.
  - rewrite answers_then by lia.
    eexists. split; [reflexivity|]. simpl. repeat split; lia.
  - destruct (tools_first sc) as (t & calls & Hm); [lia|]. rewrite Hm.
    destruct (IH fuel
                (sc ++ [ {| action := ToolCalls t calls;
                            observation := map dispatch calls |} ])%list
                (S rounds) t) as (r & Hr & Hf & Ho & Hn).
    + rewrite length_app. simpl. lia.
    + lia.
    + exists r. repeat split; try assumption. lia.
Qed.

(** Without a cap the loop goes on for as many rounds as the model asks
    for tools: [n + 1] model calls here, for any [n]. *)
Lemma run_without_cap (fuel : nat) :
  (n < fuel)%nat ->
  exists r,
    run model dispatch fuel None history = Some (Ok r)
    /\ res_finish r = NaturalFinish
    /\ res_output r = answer
    /\ res_rounds r = S n.
Proof.
  intros Hfuel. unfold run.
  apply (loop_without_cap_from n fuel [] 0%nat ""); [reflexivity|exact Hfuel].
Qed.

End LoopWithoutCap.

Section StubExecutor.

(** The executor built on the loop reads the state and writes nothing. *)
Lemma stub_invoke_store
    (model : ITeamState -> list ConversationStep -> outcome ModelOutput)
    (dispatch : ToolInvocation -> ToolResult) (fuel : nat) (a : AgentExecutor)
    (state : loc) (cfg : RunnableConfig) (h : gmap loc ITeamState) :
  (stub_invoke model dispatch fuel a state cfg h).2 = h.
Proof.
  unfold stub_invoke.
  destruct (h !! state) as [st|]; destruct (cap_of (maxIterations a)) as [cap|];
    try reflexivity.
  destruct (run model dispatch fuel cap st) as [[r|e]|]; reflexivity.
Qed.

End StubExecutor.

(** C9: on a model that asks for a tool in every round, the loop with the
    cap [k] ends (given fuel for more than [k] rounds) in a forced stop
    after exactly [k] model calls, with [k] steps on the scratchpad: not
    [k+1]; and an executor compiled with [maxIterations] written as the
    integer [k] has that cap [k], for every [k] that is a double (every
    [k] up to [2^53] is). *)
Theorem executor_exactly_k_rounds
    (model : ITeamState -> list ConversationStep -> outcome ModelOutput)
    (dispatch : ToolInvocation -> ToolResult) (history : ITeamState)
    (env : nullable string) (llm : LLM) (ts : list Tool) (p : nullable string)
    (k fuel : nat) :
  (forall sc, exists t calls, model history sc = Ok (ToolCalls t calls)) ->
  (k < fuel)%nat ->
  (forall ex,
     to_double false (N.of_nat k) 0 = Finite false (N.of_nat k) 0 ->
     createAgent env (Val llm) ts p (Val (string_of_nat k)) = Ok ex ->
     cap_of (maxIterations ex) = Some (Some k))
  /\ exists r,
       run model dispatch fuel (Some k) history = Some (Ok r)
       /\ res_finish r = ForcedStop
       /\ res_rounds r = k
       /\ length (res_steps r) = k.
Proof.
  intros Htools Hfuel. split.
  - intros ex Hk Hex.
    destruct (createAgent_ok_inv _ _ _ _ _ _ Hex) as (m & _ & _ & ->).
    cbn [maxIterations parse_maxIterations].
    rewrite string_of_nat_truthy, parseFloat_string_of_nat, Hk. simpl.
    rewrite Nat2N.id. reflexivity.
  - unfold run.
    destruct (loop_runs_to_cap model dispatch history Htools k k fuel [] 0%nat "")
      as (r & Hr & Hf & Hn & Hs); [reflexivity|exact Hfuel|].
    exists r. repeat split; assumption.
Qed.

Lemma executor_exactly_k_rounds_witness :
  cap_of (maxIterations Scenario.searcher_agent) = Some (Some 2%nat)
  /\ exists r,
       run Scenario.always_searches Scenario.echo 3 (Some 2%nat) Scenario.team
         = Some (Ok r)
       /\ res_finish r = ForcedStop
       /\ res_rounds r = 2%nat
       /\ length (res_steps r) = 2%nat.
Proof.
  destruct (executor_exactly_k_rounds Scenario.always_searches Scenario.echo
              Scenario.team Undefined (ChatOpenAI "gpt-4") [Scenario.search]
              (Val "You are a research assistant.") 2 3) as [Hcap Hrun].
  - intros sc. eexists _, _. reflexivity.
  - lia.
  - split; [|exact Hrun].
    apply (Hcap Scenario.searcher_agent); reflexivity.
Defined.

(** *** Strings *)

Section StringFacts.

Lemma starts_with_refl (s : string) : starts_with s s = true.
Proof.
  induction s as [|c s IH]; simpl; [reflexivity|].
  rewrite Ascii.eqb_refl. exact IH.
Qed.


Lemma starts_with_app_l (n a b : string) :
  starts_with n a = true -> starts_with n (a +:+ b) = true.
Proof.
  revert a. induction n as [|c n IH]; intros a H; [reflexivity|].
  destruct a as [|d a]; simpl in *; [discriminate|].
  destruct (Ascii.eqb c d); [apply IH; exact H|discriminate].
Qed.

Lemma includes_unfold (n hay : string) :
  includes n hay
    = starts_with n hay ||
      match hay with
      | EmptyString => false
      | String _ h' => includes n h'
      end.
Proof. destruct hay; reflexivity. Qed.

Lemma includes_refl (s : string) : includes s s = true.
Proof. rewrite includes_unfold, starts_with_refl. reflexivity. Qed.

Lemma includes_app_l (n a b : string) :
  includes n a = true -> includes n (a +:+ b) = true.
Proof.
  induction a as [|c a IH]; intros H.
  - rewrite includes_unfold in H. rewrite orb_false_r in H.
    destruct n; [|discriminate H]. rewrite includes_unfold. reflexivity.
  - rewrite includes_unfold in H. apply orb_true_iff in H as [H|H].
    + rewrite includes_unfold, (starts_with_app_l _ _ b H). reflexivity.
    + change (String c a +:+ b) with (String c (a +:+ b)).
      rewrite includes_unfold, (IH H). apply orb_true_r.
Qed.

Lemma includes_app_r (n a b : string) :
  includes n b = true -> includes n (a +:+ b) = true.
Proof.
  intros H. induction a as [|c a IH]; [exact H|].
  change (String c a +:+ b) with (String c (a +:+ b)).
  rewrite includes_unfold, IH. apply orb_true_r.
Qed.

Lemma join_cons2 (sep x y : string) (l : list string) :
  join sep (x :: y :: l) = x +:+ sep +:+ join sep (y :: l).
Proof. reflexivity. Qed.

(** Every element of an array occurs in its [join]. *)
Lemma includes_join (sep x : string) (l : list string) :
  x ∈ l -> includes x (join sep l) = true.
Proof.
  induction l as [|y [|z l] IH]; intros Hin.
  - apply elem_of_nil in Hin. destruct Hin.
  - apply list_elem_of_singleton in Hin. subst. apply includes_refl.
  - rewrite join_cons2. apply elem_of_cons in Hin as [->|Hin].
    + apply includes_app_l, includes_refl.
    + apply includes_app_r, includes_app_r, IH, Hin.
Qed.

End StringFacts.

(** *** The prompt *)

Section PromptFacts.

Lemma toolNames_join (ts : list Tool) :
  toolNames ts = join ", " (map tool_name ts).
Proof. destruct ts; reflexivity. Qed.

End PromptFacts.


(** X2: each tool of the toolset is named in the trailing system message:
    the text after the lead is the tool names joined by [", "], in the order
    of the toolset, and every tool's name occurs in the message. *)
Theorem trailingSegment_names_every_tool (ts : list Tool) (t : Tool) :
  t ∈ ts ->
  trailingSegment ts = restatement_lead +:+ join ", " (map tool_name ts)
  /\ includes (tool_name t) (trailingSegment ts) = true.
Proof.
  intros Hin. rewrite trailingSegment_unfold, toolNames_join.
  split; [reflexivity|].
  apply includes_app_r, includes_join, list_elem_of_fmap_2, Hin.
Qed.

Lemma trailingSegment_names_every_tool_witness :
  trailingSegment [Scenario.search; mkTool "calc" "calculator" "{}"]
    = restatement_lead +:+ join ", " ["search"; "calc"]
  /\ includes "calc" (trailingSegment [Scenario.search; mkTool "calc" "calculator" "{}"])
     = true.
Proof.
  apply (trailingSegment_names_every_tool
           [Scenario.search; mkTool "calc" "calculator" "{}"]
           (mkTool "calc" "calculator" "{}")).
  apply elem_of_cons. right. apply list_elem_of_singleton. reflexivity.
Defined.

(** *** Construction, continued *)

Section ConstructionFacts.

Lemma flatten_flat (ts : list Tool) : flatten (Val (map OneTool ts)) = ts.
Proof.
  simpl. induction ts as [|t ts IH]; simpl; [reflexivity|].
  f_equal. exact IH.
Qed.

Lemma flatten_wrapped (ts : list Tool) : flatten (Val [ToolArray ts]) = ts.
Proof. simpl. apply app_nil_r. Qed.

Lemma flatten_app (l1 l2 : list ToolEntry) :
  flatten (Val (l1 ++ l2)%list) = (flatten (Val l1) ++ flatten (Val l2))%list.
Proof. simpl. rewrite map_app, concat_app. reflexivity. Qed.

(** What the inputs of a successful construction hold. *)
Lemma init_ok_needs (env : nullable string) (nd : INodeData) (tr : list event) :
  is_ok (init env nd tr).1 = true ->
  exists wn sup llm,
    opt_chain (inputs nd) in_workerName = Val wn
    /\ truthy_string wn = true
    /\ opt_chain (inputs nd) in_supervisor = Val sup
    /\ sup_llm sup = Val llm
    /\ is_ok (parseFString (combinedPrompt (opt_chain (inputs nd) in_workerPrompt))) = true
    /\ is_ok (parseFString
                (trailingSegment (flatten (opt_chain (inputs nd) in_tools)))) = true.
Proof.
  destruct (init env nd tr) as [[w|e] tr'] eqn:H; simpl; [intros _|discriminate].
  destruct (init_ok_inv _ _ _ _ _ H)
    as (wn & sup & llm & Hwn & Ht & Hsup & Hllm & _ & _ & Hex).
  destruct (createAgent_ok_inv _ _ _ _ _ _ Hex) as (m & _ & Hp & _).
  destruct (fromMessages_prompt_parses _ _ _ Hp) as [H1 H2].
  exists wn, sup, llm. repeat split; assumption.
Qed.

(** Inputs that hold all that make the construction go through. *)
Lemma init_ok_suffices (env : nullable string) (nd : INodeData) (tr : list event)
    (wn : string) (sup : Supervisor) (llm : LLM) :
  opt_chain (inputs nd) in_workerName = Val wn ->
  truthy_string wn = true ->
  opt_chain (inputs nd) in_supervisor = Val sup ->
  sup_llm sup = Val llm ->
  is_ok (parseFString (combinedPrompt (opt_chain (inputs nd) in_workerPrompt))) = true ->
  is_ok (parseFString
           (trailingSegment (flatten (opt_chain (inputs nd) in_tools)))) = true ->
  is_ok (init env nd tr).1 = true.
Proof.
  intros Hwn Ht Hsup Hllm H1 H2.
  unfold init. rewrite Hwn, Ht, Hsup, Hllm. cbn [negb].
  rewrite (createAgent_ok_intro env llm _ _ _ (fromMessages_prompt_ok _ _ H1 H2)).
  reflexivity.
Qed.

End ConstructionFacts.


(** X4: a construction that fails, for whatever reason, has compiled no
    agent; one that succeeds has compiled exactly one, the agent its node
    runs, and the name the node signs its messages with is the name the
    worker is returned under. *)
Theorem init_compiles_once_or_never (env : nullable string) (nd : INodeData)
    (tr : list event) :
  match (init env nd tr).1 with
  | Ok w =>
      (init env nd tr).2 = (tr ++ [AgentCompiled (wn_agent (node w))])%list
      /\ wn_name (node w) = name w
      /\ node_type w = "worker"
  | Throw _ => (init env nd tr).2 = tr
  end.
Proof.
  destruct (init env nd tr) as [[w|e] tr'] eqn:H; simpl.
  - destruct (init_ok_inv _ _ _ _ _ H)
      as (wn & sup & llm & _ & _ & _ & _ & Hw & Htr & _).
    split; [exact Htr|]. rewrite Hw. split; reflexivity.
  - exact (proj1 (init_throw_inv _ _ _ _ _ H)).
Qed.



(** X6: an inner array among the tools is spread in place: tools listed
    one by one followed by an array of further tools build the same worker
    (or fail the same way) as all of them listed one by one, in that order. *)
Theorem init_spreads_inner_array (env : nullable string) (ts ts' : list Tool)
    (p wn mi : nullable string) (sup : nullable Supervisor) (tr : list event) :
  init env {| inputs := Some {| in_tools := Val (map OneTool ts ++ [ToolArray ts'])%list;
                                in_workerPrompt := p; in_workerName := wn;
                                in_supervisor := sup; in_maxIterations := mi |} |} tr
  = init env {| inputs := Some {| in_tools := Val (map OneTool (ts ++ ts')%list);
                                  in_workerPrompt := p; in_workerName := wn;
                                  in_supervisor := sup; in_maxIterations := mi |} |} tr.
Proof.
  unfold init.
  cbn [inputs opt_chain in_tools in_workerPrompt in_workerName in_supervisor
       in_maxIterations].
  rewrite flatten_app, !flatten_flat, flatten_wrapped. reflexivity.
Qed.

(** X7: when the tools input is missing, empty, or holds only empty arrays,
    the worker [init] returns has the empty toolset, its model is bound with
    [tools: undefined], and its last system message is the bare restatement
    lead. *)
Theorem init_without_tools (env : nullable string) (nd : INodeData)
    (tr tr' : list event) (w : IMultiAgentNode) :
  init env nd tr = (Ok w, tr') ->
  flatten (opt_chain (inputs nd) in_tools) = [] ->
  tools (wn_agent (node w)) = []
  /\ (exists llm, agent (wn_agent (node w)) !! 2%nat
                  = Some (Model (Binding llm {| kw_tools := None |})))
  /\ exists pr, agent (wn_agent (node w)) !! 1%nat = Some (Prompt pr)
                /\ last pr = Some (SystemTemplate restatement_lead).
Proof.
  intros H Hts.
  destruct (init_ok_inv _ _ _ _ _ H) as (n & s & llm & _ & _ & _ & _ & Hw & _).
  rewrite Hw. cbn [node wn_agent]. rewrite Hts.
  split; [reflexivity|]. split.
  - exists llm. reflexivity.
  - eexists. split; reflexivity.
Qed.

Lemma init_without_tools_witness :
  tools (wn_agent (node Scenario.summarizer_worker)) = []
  /\ (exists llm, agent (wn_agent (node Scenario.summarizer_worker)) !! 2%nat
                  = Some (Model (Binding llm {| kw_tools := None |})))
  /\ exists pr, agent (wn_agent (node Scenario.summarizer_worker)) !! 1%nat
                = Some (Prompt pr)
                /\ last pr = Some (SystemTemplate restatement_lead).
Proof.
  apply (init_without_tools Undefined Scenario.summarizer []
           [AgentCompiled Scenario.summarizer_agent] Scenario.summarizer_worker);
    reflexivity.
Defined.

(** X8: the default the constructor declares for the worker prompt is not
    applied by [init]: when [workerPrompt] is missing the construction still
    goes through, and the first system message begins with the text
    [undefined] followed by a line feed and does not hold the declared
    default. *)
Theorem init_without_workerPrompt (env : nullable string) (nd : INodeData)
    (tr tr' : list event) (w : IMultiAgentNode) :
  init env nd tr = (Ok w, tr') ->
  opt_chain (inputs nd) in_workerPrompt = Undefined ->
  exists first rest,
    agent (wn_agent (node w)) !! 1%nat = Some (Prompt (SystemTemplate first :: rest))
    /\ starts_with ("undefined" +:+ nl) first = true
    /\ includes NodeClass.examplePrompt first = false.
Proof.
  intros H Hp.
  destruct (init_ok_inv _ _ _ _ _ H) as (n & s & llm & _ & _ & _ & _ & Hw & _).
  rewrite Hw, Hp. cbn [node wn_agent].
  eexists _, _. split; [reflexivity|]. split; reflexivity.
Qed.

Lemma init_without_workerPrompt_witness :
  exists first rest,
    agent {| agent := [ AssignScratchpad;
                        Prompt (prompt [] Undefined);
                        Model (Binding (ChatOpenAI "gpt-4") {| kw_tools := None |});
                        OpenAIToolsAgentOutputParser ];
             tools := []; verbose := false; maxIterations := None |} !! 1%nat
      = Some (Prompt (SystemTemplate first :: rest))
    /\ starts_with ("undefined" +:+ nl) first = true
    /\ includes NodeClass.examplePrompt first = false.
Proof.
  apply (init_without_workerPrompt Undefined
           {| inputs := Some {| in_tools := Undefined;
                                in_workerPrompt := Undefined;
                                in_workerName := Val "worker";
                                in_supervisor := Val Scenario.supervisor;
                                in_maxIterations := Undefined |} |}
           [] [AgentCompiled
                 {| agent := [ AssignScratchpad;
                               Prompt (prompt [] Undefined);
                               Model (Binding (ChatOpenAI "gpt-4") {| kw_tools := None |});
                               OpenAIToolsAgentOutputParser ];
                    tools := []; verbose := false; maxIterations := None |}]
           {| node := {| wn_agent :=
                           {| agent := [ AssignScratchpad;
                                         Prompt (prompt [] Undefined);
                                         Model (Binding (ChatOpenAI "gpt-4")
                                                  {| kw_tools := None |});
                                         OpenAIToolsAgentOutputParser ];
                              tools := []; verbose := false; maxIterations := None |};
                         wn_name := "worker" |};
              name := "worker"; node_type := "worker";
              parentSupervisorName := "supervisor" |});
    reflexivity.
Defined.

(** X9: the inputs the constructor declares and the inputs [init] needs:
    from inputs on which [init] succeeds, removing one declared input keeps
    it succeeding exactly when that input is neither [workerName] nor
    [supervisor]; in particular every input declared [optional: true] can
    be left out. *)
Theorem declared_inputs_needed (env : nullable string) (i : Inputs)
    (tr : list event) (p : NodeClass.INodeParams) :
  p ∈ NodeClass.cls_inputs NodeClass.Worker_MultiAgents ->
  is_ok (init env {| inputs := Some i |} tr).1 = true ->
  (is_ok (init env {| inputs := Some (NodeClass.delete_input (NodeClass.prm_name p) i) |}
               tr).1 = true
   <-> NodeClass.prm_name p <> "workerName" /\ NodeClass.prm_name p <> "supervisor")
  /\ (NodeClass.prm_optional p = Some true ->
      is_ok (init env {| inputs := Some (NodeClass.delete_input (NodeClass.prm_name p) i) |}
                  tr).1 = true).
Proof.
  intros Hp Hok.
  apply init_ok_needs in Hok as (wn & sup & llm & Hwn & Ht & Hsup & Hllm & H1 & H2).
  destruct i as [t pp n s m]. simpl in Hwn, Hsup, H1, H2. subst n s.
  unfold NodeClass.Worker_MultiAgents, NodeClass.cls_inputs in Hp.
  repeat (apply elem_of_cons in Hp as [->|Hp]); [..|apply elem_of_nil in Hp; destruct Hp].
  - (* workerName *)
    split; [split; [intros Hx; discriminate Hx|intros [Hx _]; exfalso; apply Hx; reflexivity]|].
    intros Hopt; discriminate Hopt.
  - (* workerPrompt *)
    assert (Hgo : is_ok (init env {| inputs := Some (NodeClass.delete_input
                                       "workerPrompt"
                                       {| in_tools := t; in_workerPrompt := pp;
                                          in_workerName := Val wn;
                                          in_supervisor := Val sup;
                                          in_maxIterations := m |}) |} tr).1 = true).
    { apply (init_ok_suffices _ _ _ wn sup llm); try reflexivity; assumption. }
    split; [split; [intros _; split; discriminate|intros _; exact Hgo]|].
    intros _. exact Hgo.
  - (* supervisor *)
    split; [split; [unfold init; cbn; rewrite Ht; cbn; intros Hx; discriminate Hx
                   |intros [_ Hx]; exfalso; apply Hx; reflexivity]|].
    intros Hopt; discriminate Hopt.
  - (* tools *)
    assert (Hgo : is_ok (init env {| inputs := Some (NodeClass.delete_input
                                       "tools"
                                       {| in_tools := t; in_workerPrompt := pp;
                                          in_workerName := Val wn;
                                          in_supervisor := Val sup;
                                          in_maxIterations := m |}) |} tr).1 = true).
    { apply (init_ok_suffices _ _ _ wn sup llm); try reflexivity; assumption. }
    split; [split; [intros _; split; discriminate|intros _; exact Hgo]|].
    intros _. exact Hgo.
  - (* maxIterations *)
    assert (Hgo : is_ok (init env {| inputs := Some (NodeClass.delete_input
                                       "maxIterations"
                                       {| in_tools := t; in_workerPrompt := pp;
                                          in_workerName := Val wn;
                                          in_supervisor := Val sup;
                                          in_maxIterations := m |}) |} tr).1 = true).
    { apply (init_ok_suffices _ _ _ wn sup llm); try reflexivity; assumption. }
    split; [split; [intros _; split; discriminate|intros _; exact Hgo]|].
    intros _. exact Hgo.
Qed.

Lemma declared_inputs_needed_witness :
  (is_ok (init Undefined
               {| inputs := Some (NodeClass.delete_input "maxIterations"
                                    {| in_tools := Val [OneTool Scenario.search];
                                       in_workerPrompt := Val "You are a research assistant.";
                                       in_workerName := Val "researcher";
                                       in_supervisor := Val Scenario.supervisor;
                                       in_maxIterations := Val "2" |}) |} []).1 = true
   <-> "maxIterations" <> "workerName" /\ "maxIterations" <> "supervisor")
  /\ (Some true = Some true ->
      is_ok (init Undefined
                  {| inputs := Some (NodeClass.delete_input "maxIterations"
                                       {| in_tools := Val [OneTool Scenario.search];
                                          in_workerPrompt := Val "You are a research assistant.";
                                          in_workerName := Val "researcher";
                                          in_supervisor := Val Scenario.supervisor;
                                          in_maxIterations := Val "2" |}) |} []).1 = true).
Proof.
  apply (declared_inputs_needed Undefined
           {| in_tools := Val [OneTool Scenario.search];
              in_workerPrompt := Val "You are a research assistant.";
              in_workerName := Val "researcher";
              in_supervisor := Val Scenario.supervisor;
              in_maxIterations := Val "2" |} []
           {| NodeClass.prm_label := "Max Iterations";
              NodeClass.prm_name := "maxIterations";
              NodeClass.prm_type := "number";
              NodeClass.prm_placeholder := None; NodeClass.prm_rows := None;
              NodeClass.prm_default := None; NodeClass.prm_list := None;
              NodeClass.prm_optional := Some true;
              NodeClass.prm_additionalParams := Some true |}).
  - unfold NodeClass.Worker_MultiAgents, NodeClass.cls_inputs.
    do 4 (apply elem_of_cons; right). apply elem_of_cons. left. reflexivity.
  - reflexivity.
Defined.

(** X10: an executor that [createAgent] returns is verbose exactly when
    the environment variable [DEBUG] is the string [true], spelled so; no
    other input bears on it. *)
Theorem createAgent_verbose_iff (env : nullable string) (llm : nullable LLM)
    (ts : list Tool) (p mi : nullable string) (ex : AgentExecutor) :
  createAgent env llm ts p mi = Ok ex ->
  (verbose ex = true <-> env = Val "true").
Proof.
  intros Hex. destruct (createAgent_ok_inv _ _ _ _ _ _ Hex) as (m & _ & _ & ->).
  simpl. destruct env as [| |s]; simpl; split; try discriminate.
  - intros H. apply String.eqb_eq in H. subst. reflexivity.
  - intros H. inversion H. reflexivity.
Qed.

Lemma createAgent_verbose_iff_witness :
  verbose {| agent := [ AssignScratchpad;
                        Prompt (prompt [] (Val "Summarize the given text"));
                        Model (Binding (ChatOpenAI "gpt-4") {| kw_tools := None |});
                        OpenAIToolsAgentOutputParser ];
             tools := []; verbose := false; maxIterations := None |} = true
  <-> Val "TRUE" = Val "true".
Proof.
  apply (createAgent_verbose_iff (Val "TRUE") (Val (ChatOpenAI "gpt-4")) []
           (Val "Summarize the given text") Undefined).
  reflexivity.
Defined.

(** X11: the worker node fails exactly when the executor's [invoke] fails,
    and with the same error: it neither catches an error nor raises one of
    its own, and a failed run returns no message. *)
Theorem workerNode_fails_iff
    (invoke : AgentExecutor -> loc -> RunnableConfig -> M (gmap loc ITeamState) ChainValues)
    (w : WorkerNode) (state : loc) (cfg : RunnableConfig) (h : gmap loc ITeamState)
    (e : error) :
  (workerNode invoke w state cfg h).1 = Throw e
  <-> (invoke (wn_agent w) state cfg h).1 = Throw e.
Proof.
  unfold workerNode, agentNode, Eff.bind, ret.
  destruct (invoke (wn_agent w) state cfg h) as [[r|e'] h']; simpl;
    split; intros H; try discriminate H; inversion H; reflexivity.
Qed.

(** *** Reading [maxIterations], continued *)

Section ParseFloatFacts.

Lemma trim_start_app_spaces (ws s : string) :
  trim_start ws = "" -> trim_start (ws +:+ s) = trim_start s.
Proof.
  induction ws as [|c ws IH]; intros H; [reflexivity|].
  simpl in *. destruct (is_space c); [apply IH; exact H|discriminate H].
Qed.

Lemma parseFloat_app_spaces (ws s : string) :
  trim_start ws = "" -> parseFloat (ws +:+ s) = parseFloat s.
Proof.
  intros H. unfold parseFloat. rewrite (trim_start_app_spaces ws s H). reflexivity.
Qed.

(** Digits followed by something that is no digit: the run stops there. *)
Lemma take_digits_app (s tail : string) :
  (take_digits s).2 = "" ->
  match tail with String c _ => digit_of c = None | EmptyString => True end ->
  take_digits (s +:+ tail) = ((take_digits s).1, tail).
Proof.
  intros Hs Htail. induction s as [|c s IH].
  - destruct tail as [|c r]; [reflexivity|]. simpl. rewrite Htail. reflexivity.
  - change (String c s +:+ tail) with (String c (s +:+ tail)).
    simpl in *. destruct (digit_of c) as [d|]; [|discriminate Hs].
    destruct (take_digits s) as [ds r]. simpl in *.
    rewrite (IH Hs). reflexivity.
Qed.

Lemma take_digits_length (s : string) :
  (take_digits s).2 = "" -> length (take_digits s).1 = String.length s.
Proof.
  induction s as [|c s IH]; intros H; [reflexivity|].
  simpl in *. destruct (digit_of c) as [d|]; [|discriminate H].
  destruct (take_digits s) as [ds r]. simpl in *. rewrite (IH H). reflexivity.
Qed.

Lemma take_exponent_other (c : ascii) (r : string) :
  c <> "e"%char -> c <> "E"%char -> take_exponent (String c r) = 0%Z.
Proof.
  intros He HE. unfold take_exponent.
  rewrite bool_decide_eq_false_2; [reflexivity|].
  intros [H|H]; congruence.
Qed.

(** The printed form of [k]: a first digit, then digits to the end. *)
Lemma string_of_nat_digits (k : nat) :
  exists c0 v r0 ds,
    string_of_nat k = String c0 r0
    /\ digit_of c0 = Some v
    /\ take_digits r0 = (ds, "")
    /\ digits_value (v :: ds) = N.of_nat k.
Proof.
  unfold string_of_nat.
  pose proof (to_uint_not_Nil k) as Hnil.
  pose proof (DecimalNat.Unsigned.of_to k) as Hk.
  destruct (take_digits_string_of_uint (Nat.to_uint k)) as (dsa & Htd & _ & Hval).
  specialize (Hval 0%nat). fold (Nat.of_uint (Nat.to_uint k)) in Hval.
  rewrite Hk in Hval. clear Hk.
  destruct (Nat.to_uint k) as [|d|d|d|d|d|d|d|d|d|d]; [congruence|..].
  all: cbn [NilEmpty.string_of_uint] in *.
  all: match type of Htd with
       | take_digits (String ?c ?r) = _ =>
           destruct (take_digits r) as [ds' r'] eqn:Hr;
           cbn in Htd; rewrite Hr in Htd; inversion Htd; subst;
           eexists c, _, r, ds';
           (split; [reflexivity|]); (split; [reflexivity|]);
           (split; [exact Hr|]); exact Hval
       end.
Qed.

(** A run of digits ended by a character that continues no literal. *)
Lemma parseFloat_digits_then (c0 : ascii) (v : N) (rest0 : string) (ds : list N)
    (c : ascii) (rest : string) :
  digit_of c0 = Some v ->
  take_digits rest0 = (ds, String c rest) ->
  c <> "."%char -> c <> "e"%char -> c <> "E"%char ->
  parseFloat (String c0 rest0) = to_double false (digits_value (v :: ds)) 0.
Proof.
  intros Hc Hrest Hdot He HE.
  destruct (digit_char c0 v Hc) as (Hsp & Hm & Hp & HI).
  unfold parseFloat.
  rewrite (trim_start_keep _ _ Hsp), (take_sign_none _ _ Hm Hp).
  rewrite (starts_with_Infinity_no _ _ HI).
  rewrite (take_digits_cons _ _ _ Hc), Hrest. cbn [fst snd].
  rewrite (take_exponent_other c rest He HE).
  destruct c as [[] [] [] [] [] [] [] []]; try reflexivity; congruence.
Qed.

Lemma parseFloat_minus_digits (c0 : ascii) (v : N) (rest0 : string) (ds : list N) :
  digit_of c0 = Some v ->
  take_digits rest0 = (ds, "") ->
  parseFloat (String "-" (String c0 rest0)) = to_double true (digits_value (v :: ds)) 0.
Proof.
  intros Hc Hrest.
  destruct (digit_char c0 v Hc) as (_ & _ & _ & HI).
  unfold parseFloat.
  rewrite (trim_start_keep "-" _ eq_refl).
  change (take_sign (String "-" (String c0 rest0))) with (true, String c0 rest0).
  cbv beta iota.
  rewrite (starts_with_Infinity_no _ _ HI).
  rewrite (take_digits_cons _ _ _ Hc), Hrest. reflexivity.
Qed.

(** The executor is given what the [maxIterations] text parses to. *)
Lemma createAgent_maxIterations (env : nullable string) (llm : nullable LLM)
    (ts : list Tool) (p mi : nullable string) (ex : AgentExecutor) :
  createAgent env llm ts p mi = Ok ex ->
  maxIterations ex = parse_maxIterations mi.
Proof.
  intros Hex. destruct (createAgent_ok_inv _ _ _ _ _ _ Hex) as (m & _ & _ & ->).
  reflexivity.
Qed.

End ParseFloatFacts.

(** X12: white space in front of the [maxIterations] text is skipped when
    the number is read, but it makes the text non-empty: a limit written
    after blanks is the same limit, and a text of blanks only gives the
    executor what [parseFloat] makes of the empty text, [NaN], where the
    empty text itself gives it [undefined]. *)
Theorem maxIterations_leading_space (env : nullable string) (llm : nullable LLM)
    (ts : list Tool) (p : nullable string) (ws s : string) (ex : AgentExecutor) :
  trim_start ws = "" ->
  createAgent env llm ts p (Val (ws +:+ s)) = Ok ex ->
  maxIterations ex
    = (if truthy_string (ws +:+ s) then Some (parseFloat s) else None)
  /\ parseFloat "" = NaN.
Proof.
  intros Hws Hex. split; [|reflexivity].
  rewrite (createAgent_maxIterations _ _ _ _ _ _ Hex). simpl.
  destruct (truthy_string (ws +:+ s)); [|reflexivity].
  rewrite (parseFloat_app_spaces ws s Hws). reflexivity.
Qed.

Lemma maxIterations_leading_space_witness :
  maxIterations {| agent := [ AssignScratchpad;
                              Prompt (prompt [] (Val "P"));
                              Model (Binding (ChatOpenAI "gpt-4") {| kw_tools := None |});
                              OpenAIToolsAgentOutputParser ];
                   tools := []; verbose := false;
                   maxIterations := Some (Finite false 7 0) |}
    = Some (Finite false 7 0)
  /\ parseFloat "" = NaN.
Proof.
  apply (maxIterations_leading_space Undefined (Val (ChatOpenAI "gpt-4")) []
           (Val "P") "  " "7"); reflexivity.
Defined.

(** X13: text after the digits is ignored: a limit written as the integer
    [k], up to [2^53], followed by any character that is no digit, no dot
    and no [e]/[E], and then anything at all, reaches the executor as [k]. *)
Theorem maxIterations_trailing_text (env : nullable string) (llm : nullable LLM)
    (ts : list Tool) (p : nullable string) (k : nat) (c : ascii) (rest : string)
    (ex : AgentExecutor) :
  (N.of_nat k <= 2 ^ 53)%N ->
  digit_of c = None ->
  c <> "."%char -> c <> "e"%char -> c <> "E"%char ->
  createAgent env llm ts p (Val (string_of_nat k +:+ String c rest)) = Ok ex ->
  maxIterations ex = Some (Finite false (N.of_nat k) 0).
Proof.
  intros Hk Hc Hdot He HE Hex.
  rewrite (createAgent_maxIterations _ _ _ _ _ _ Hex).
  destruct (string_of_nat_digits k) as (c0 & v & r0 & ds & Hs & Hc0 & Hr0 & Hv).
  rewrite Hs. change (String c0 r0 +:+ String c rest) with (String c0 (r0 +:+ String c rest)).
  simpl. f_equal. rewrite <- (to_double_integer false _ Hk), <- Hv.
  apply (parseFloat_digits_then c0 v _ ds c rest Hc0); try assumption.
  rewrite take_digits_app;
    [rewrite Hr0; reflexivity|rewrite Hr0; reflexivity|exact Hc].
Qed.

Lemma maxIterations_trailing_text_witness :
  maxIterations {| agent := [ AssignScratchpad;
                              Prompt (prompt [] (Val "P"));
                              Model (Binding (ChatOpenAI "gpt-4") {| kw_tools := None |});
                              OpenAIToolsAgentOutputParser ];
                   tools := []; verbose := false;
                   maxIterations := Some (Finite false 5 0) |}
    = Some (Finite false (N.of_nat 5) 0).
Proof.
  apply (maxIterations_trailing_text Undefined (Val (ChatOpenAI "gpt-4")) [] (Val "P")
           5 " "%char "rounds");
    [vm_compute; discriminate|reflexivity|discriminate|discriminate|discriminate
    |reflexivity].
Defined.

(** X14: no sign check is made: a limit written as [-k], [k] up to [2^53],
    reaches the executor as the negative number [-k]. *)
Theorem maxIterations_negative (env : nullable string) (llm : nullable LLM)
    (ts : list Tool) (p : nullable string) (k : nat) (ex : AgentExecutor) :
  (N.of_nat k <= 2 ^ 53)%N ->
  createAgent env llm ts p (Val (String "-" (string_of_nat k))) = Ok ex ->
  maxIterations ex = Some (Finite true (N.of_nat k) 0).
Proof.
  intros Hk Hex.
  rewrite (createAgent_maxIterations _ _ _ _ _ _ Hex).
  destruct (string_of_nat_digits k) as (c0 & v & r0 & ds & Hs & Hc0 & Hr0 & Hv).
  rewrite Hs. simpl. f_equal. rewrite <- (to_double_integer true _ Hk), <- Hv.
  apply (parseFloat_minus_digits c0 v r0 ds Hc0 Hr0).
Qed.

Lemma maxIterations_negative_witness :
  maxIterations {| agent := [ AssignScratchpad;
                              Prompt (prompt [] (Val "P"));
                              Model (Binding (ChatOpenAI "gpt-4") {| kw_tools := None |});
                              OpenAIToolsAgentOutputParser ];
                   tools := []; verbose := false;
                   maxIterations := Some (Finite true 3 0) |}
    = Some (Finite true (N.of_nat 3) 0).
Proof.
  apply (maxIterations_negative Undefined (Val (ChatOpenAI "gpt-4")) [] (Val "P") 3);
    [vm_compute; discriminate|reflexivity].
Defined.

(** X15: a non-empty [maxIterations] text whose first character past the
    leading white space is no digit, no sign, no dot and not [I], or that is
    white space throughout, gives the executor [NaN]. *)
Theorem maxIterations_not_numeric (env : nullable string) (llm : nullable LLM)
    (ts : list Tool) (p : nullable string) (s : string) (ex : AgentExecutor) :
  s <> "" ->
  match trim_start s with
  | EmptyString => True
  | String c _ =>
      digit_of c = None /\ c <> "-"%char /\ c <> "+"%char
      /\ c <> "."%char /\ c <> "I"%char
  end ->
  createAgent env llm ts p (Val s) = Ok ex ->
  maxIterations ex = Some NaN.
Proof.
  intros Hne Hhead Hex.
  rewrite (createAgent_maxIterations _ _ _ _ _ _ Hex). simpl.
  destruct s as [|c s]; [congruence|]. simpl truthy_string. cbv iota.
  rewrite (parseFloat_NaN_head _ Hhead). reflexivity.
Qed.

Lemma maxIterations_not_numeric_witness :
  maxIterations {| agent := [ AssignScratchpad;
                              Prompt (prompt [] (Val "P"));
                              Model (Binding (ChatOpenAI "gpt-4") {| kw_tools := None |});
                              OpenAIToolsAgentOutputParser ];
                   tools := []; verbose := false;
                   maxIterations := Some NaN |}
    = Some NaN.
Proof.
  apply (maxIterations_not_numeric Undefined (Val (ChatOpenAI "gpt-4")) [] (Val "P") " ten").
  - discriminate.
  - repeat split; discriminate.
  - reflexivity.
Defined.

Section FractionFacts.

Lemma digits_fold_shift (ds : list N) (acc : N) :
  fold_left (fun a x => 10 * a + x)%N ds acc
  = (acc * 10 ^ N.of_nat (length ds)
     + fold_left (fun a x => 10 * a + x)%N ds 0)%N.
Proof.
  revert acc. induction ds as [|d ds IH]; intros acc.
  - simpl. lia.
  - cbn [fold_left length]. rewrite (IH (10 * acc + d)%N), (IH (10 * 0 + d)%N).
    rewrite Nat2N.inj_succ, N.pow_succ_r'. lia.
Qed.

Lemma digits_value_app (xs ys : list N) :
  digits_value (xs ++ ys)
  = (digits_value xs * 10 ^ N.of_nat (length ys) + digits_value ys)%N.
Proof.
  unfold digits_value. rewrite fold_left_app. apply digits_fold_shift.
Qed.

End FractionFacts.

(** X16: the digits after a dot are read, and the limit is not cut to an
    integer: written as the integer [a], a dot and the digits of [b], it
    reaches the executor as the double nearest to the decimal
    [(a * 10^L + b) * 10^(-L)], [L] being the number of digits after the
    dot; [2.5] stays [5/2]. *)
Theorem maxIterations_fraction (env : nullable string) (llm : nullable LLM)
    (ts : list Tool) (p : nullable string) (a b : nat) (ex : AgentExecutor) :
  createAgent env llm ts p
    (Val (string_of_nat a +:+ String "." (string_of_nat b))) = Ok ex ->
  maxIterations ex
  = Some (to_double false
            (N.of_nat a * 10 ^ N.of_nat (String.length (string_of_nat b)) + N.of_nat b)
            (- Z.of_nat (String.length (string_of_nat b))))
  /\ to_double false 25 (-1) = Finite false 5 1.
Proof.
  intros Hex. split; [|reflexivity].
  rewrite (createAgent_maxIterations _ _ _ _ _ _ Hex).
  destruct (string_of_nat_digits a) as (c0 & v & r0 & ds & Hs & Hc0 & Hr0 & Hv).
  destruct (string_of_nat_digits b) as (c1 & v1 & r1 & ds1 & Hs1 & Hc1 & Hr1 & Hv1).
  assert (Hb : take_digits (string_of_nat b) = (v1 :: ds1, "")).
  { rewrite Hs1, (take_digits_cons _ _ _ Hc1), Hr1. reflexivity. }
  assert (Hlen : length (v1 :: ds1) = String.length (string_of_nat b)).
  { pose proof (take_digits_length (string_of_nat b)) as HL.
    rewrite Hb in HL. apply HL. reflexivity. }
  rewrite Hs at 1.
  change (String c0 r0 +:+ String "." (string_of_nat b))
    with (String c0 (r0 +:+ String "." (string_of_nat b))).
  cbn [parse_maxIterations truthy_string]. f_equal.
  destruct (digit_char c0 v Hc0) as (Hsp & Hm & Hp & HI).
  unfold parseFloat.
  rewrite (trim_start_keep _ _ Hsp), (take_sign_none _ _ Hm Hp).
  rewrite (starts_with_Infinity_no _ _ HI).
  rewrite (take_digits_cons _ _ _ Hc0).
  rewrite (take_digits_app r0 (String "." (string_of_nat b)));
    [|rewrite Hr0; reflexivity|reflexivity].
  rewrite Hr0. cbn [fst snd]. rewrite Hb.
  change (take_exponent "") with 0%Z.
  rewrite <- Hlen, <- Hv, <- Hv1, <- digits_value_app. reflexivity.
Qed.

Lemma maxIterations_fraction_witness :
  maxIterations {| agent := [ AssignScratchpad;
                              Prompt (prompt [] (Val "P"));
                              Model (Binding (ChatOpenAI "gpt-4") {| kw_tools := None |});
                              OpenAIToolsAgentOutputParser ];
                   tools := []; verbose := false;
                   maxIterations := Some (Finite false 5 1) |}
  = Some (to_double false
            (N.of_nat 2 * 10 ^ N.of_nat (String.length (string_of_nat 5)) + N.of_nat 5)
            (- Z.of_nat (String.length (string_of_nat 5))))
  /\ to_double false 25 (-1) = Finite false 5 1.
Proof.
  apply (maxIterations_fraction Undefined (Val (ChatOpenAI "gpt-4")) [] (Val "P") 2 5).
  reflexivity.
Defined.

(** X17: the three places a toolset goes to agree in every executor
    [createAgent] returns: the tools the executor can dispatch are the
    tools given, the names restated in the last system message are their
    names in order, and so are the names of the schema entries the model is
    bound with (none for the empty toolset). *)
Theorem createAgent_tools_agree (env : nullable string) (llm : LLM)
    (ts : list Tool) (p mi : nullable string) (ex : AgentExecutor) :
  createAgent env (Val llm) ts p mi = Ok ex ->
  tools ex = ts
  /\ exists kw pr,
       agent ex !! 2%nat = Some (Model (Binding llm kw))
       /\ agent ex !! 1%nat = Some (Prompt pr)
       /\ last pr = Some (SystemTemplate
                            (restatement_lead +:+ join ", " (map tool_name ts)))
       /\ match kw_tools kw with
          | Some entries => map entry_name entries
          | None => []
          end = map tool_name ts.
Proof.
  intros Hex. destruct (createAgent_ok_inv _ _ _ _ _ _ Hex) as (m & Hm & _ & ->).
  inversion Hm; subst m.
  split; [reflexivity|].
  eexists _, _. split; [simpl; rewrite modelWithTools_cases; reflexivity|].
  split; [reflexivity|]. split.
  - rewrite prompt_last, trailingSegment_unfold, toolNames_join. reflexivity.
  - destruct ts as [|t ts']; [reflexivity|].
    exact (entry_names_convert (t :: ts')).
Qed.

Lemma createAgent_tools_agree_witness :
  tools Scenario.searcher_agent = [Scenario.search]
  /\ exists kw pr,
       agent Scenario.searcher_agent !! 2%nat = Some (Model (Binding (ChatOpenAI "gpt-4") kw))
       /\ agent Scenario.searcher_agent !! 1%nat = Some (Prompt pr)
       /\ last pr = Some (SystemTemplate
                            (restatement_lead +:+ join ", " (map tool_name [Scenario.search])))
       /\ match kw_tools kw with
          | Some entries => map entry_name entries
          | None => []
          end = map tool_name [Scenario.search].
Proof.
  apply (createAgent_tools_agree Undefined (ChatOpenAI "gpt-4") [Scenario.search]
           (Val "You are a research assistant.") (Val "2")).
  reflexivity.
Defined.
